(** * MLB microservices: gateway, player service and team service

    A shallow embedding of [gateway.js], [services/player.js] and
    [services/team.js].

    - JavaScript values are an inductive type; the built-ins the handlers
      call ([String], [parseInt], truthiness, property reads,
      [Array.isArray] and [Array.prototype.filter]) are functions
      over it, with a thrown [TypeError] as [None].
    - An [async] handler is a program of the free monad [prog]: it returns,
      throws, or performs [fetch] and continues with the answer.  Running a
      program against a network gives its outcome and the list of URLs it
      requested, in order.
    - A number is a safe integer, one whose absolute value is at most
      [Number.MAX_SAFE_INTEGER]: these are the integers JavaScript holds
      exactly and prints as plain decimal numerals, and every numeric field
      of the data model holds one.  Other numbers are not values of the
      embedding.
    - A string is a sequence of code units below 256.
    - A handler is the function the source writes, and its reply is the
      status it set and the value it returned.  In front of the handlers of
      the two services stands the check of the route's [params] schema
      ([id: { type: "integer" }]), which rejects a path segment that is not
      a number with status 400 and hands an integer to the handler as a
      number. *)

From Stdlib Require Import ZArith String Ascii List Bool Lia Eqdep_dec.
Import ListNotations.

#[local] Set Warnings "-register-all".

Local Open Scope string_scope.
Local Open Scope Z_scope.

(** ** JavaScript values and built-ins *)

Module JS.

(** [Number.isSafeInteger] on an integer. *)
Definition safe (v : Z) : bool := Z.abs v <=? 9007199254740991.

(** The numbers of the embedding. *)
Record int : Type := mkInt { Z_of :> Z; int_safe : safe Z_of = true }.

Notation "# n" := (mkInt n eq_refl) (at level 1, n at level 0, format "# n").

(** The safe integer with the value [v], when there is one. *)
Definition to_int (v : Z) : option int :=
  (if safe v as b return (safe v = b -> option int)
   then fun H => Some (mkInt v H)
   else fun _ => None) eq_refl.

Inductive value : Type :=
| VUndefined
| VNull
| VBool (b : bool)
| VNum (n : int)
| VStr (s : string)
| VArr (elems : list value)
| VObj (props : list (string * value)).

(** The option monad carries a thrown exception as [None]. *)
Definition bind {A B : Type} (m : option A) (k : A -> option B) : option B :=
  match m with
  | Some a => k a
  | None => None
  end.

Notation "x <- m ;; k" := (bind m (fun x => k))
  (at level 61, m at next level, right associativity).

(** ToBoolean. *)
Definition truthy (v : value) : bool :=
  match v with
  | VUndefined | VNull => false
  | VBool b => b
  | VNum n => negb (n =? 0)%Z
  | VStr s => negb (s =? "")%string
  | VArr _ | VObj _ => true
  end.

Fixpoint lookup (key : string) (props : list (string * value)) : option value :=
  match props with
  | [] => None
  | (k, v) :: rest => if (k =? key)%string then Some v else lookup key rest
  end.

Definition has_key (key : string) (props : list (string * value)) : bool :=
  match lookup key props with
  | Some _ => true
  | None => false
  end.

(** The property read [v.key], for a key that no built-in prototype
    defines and that is neither an index nor [length] (the handlers read
    [error] and [teamId]): reading from [undefined] or [null] throws, an
    object answers from its own properties, anything else has no such
    property. *)
Definition get (v : value) (key : string) : option value :=
  match v with
  | VUndefined | VNull => None
  | VObj props =>
      Some (match lookup key props with
            | Some x => x
            | None => VUndefined
            end)
  | VBool _ | VNum _ | VStr _ | VArr _ => Some VUndefined
  end.

Definition isArray (v : value) : bool :=
  match v with
  | VArr _ => true
  | _ => false
  end.

(** *** Decimal numerals

    [decimal] writes an integer in base ten.  Number::toString of a safe
    integer is its decimal numeral. *)

Definition digit_char (d : Z) : ascii := ascii_of_nat (48 + Z.to_nat d).

Fixpoint digits_fuel (fuel : nat) (n : Z) (acc : string) : string :=
  match fuel with
  | O => acc
  | S f =>
      let acc' := String (digit_char (n mod 10)) acc in
      if n <? 10 then acc' else digits_fuel f (n / 10) acc'
  end.

(** The digits of [n >= 0], most significant first; ["0"] for zero. *)
Definition digits (n : Z) : string :=
  digits_fuel (S (Z.to_nat (Z.log2 n))) n "".

Definition decimal (n : Z) : string :=
  if n <? 0 then String "-" (digits (- n)) else digits n.

(** *** String(v), that is ToString *)

(** An array joins its elements with commas, [null] and [undefined]
    printing as nothing.  A parsed JSON object prints through
    [Object.prototype.toString] unless it has a property [toString] of its
    own, which is then not callable and makes the conversion throw. *)
Fixpoint JS_String (v : value) : option string :=
  match v with
  | VUndefined => Some "undefined"
  | VNull => Some "null"
  | VBool true => Some "true"
  | VBool false => Some "false"
  | VNum n => Some (decimal n)
  | VStr s => Some s
  | VArr elems =>
      (fix join (l : list value) : option string :=
         match l with
         | [] => Some ""
         | x :: rest =>
             e <- match x with
                  | VUndefined | VNull => Some ""
                  | _ => JS_String x
                  end ;;
             match rest with
             | [] => Some e
             | _ :: _ => r <- join rest ;; Some (e ++ "," ++ r)%string
             end
         end) elems
  | VObj props =>
      if has_key "toString" props then None else Some "[object Object]"
  end.

(** *** parseInt(string) with no radix argument *)

Definition is_white_space (c : ascii) : bool :=
  let n := nat_of_ascii c in
  ((9 <=? n)%nat && (n <=? 13)%nat) || (n =? 32)%nat || (n =? 160)%nat.

Fixpoint trim_start (s : string) : string :=
  match s with
  | String c rest => if is_white_space c then trim_start rest else s
  | EmptyString => s
  end.

Definition digit_value (c : ascii) : option Z :=
  let n := Z.of_nat (nat_of_ascii c) in
  if (48 <=? n) && (n <=? 57) then Some (n - 48)
  else if (97 <=? n) && (n <=? 122) then Some (n - 87)
  else if (65 <=? n) && (n <=? 90) then Some (n - 55)
  else None.

Definition radix_digit (R : Z) (c : ascii) : option Z :=
  match digit_value c with
  | Some d => if d <? R then Some d else None
  | None => None
  end.

(** The value of the longest prefix of radix-[R] digits, continuing from
    [acc]. *)
Fixpoint digits_value (R : Z) (s : string) (acc : Z) : Z :=
  match s with
  | String c rest =>
      match radix_digit R c with
      | Some d => digits_value R rest (acc * R + d)
      | None => acc
      end
  | EmptyString => acc
  end.

Definition starts_with_digit (R : Z) (s : string) : bool :=
  match s with
  | String c _ =>
      match radix_digit R c with
      | Some _ => true
      | None => false
      end
  | EmptyString => false
  end.

Definition strip_sign (s : string) : bool * string :=
  match s with
  | String c rest =>
      if (c =? "-")%char then (true, rest)
      else if (c =? "+")%char then (false, rest)
      else (false, s)
  | EmptyString => (false, s)
  end.

Definition strip_hex_prefix (s : string) : Z * string :=
  match s with
  | String c (String x rest) =>
      if (c =? "0")%char && ((x =? "x")%char || (x =? "X")%char)
      then (16, rest)
      else (10, s)
  | _ => (10, s)
  end.

(** Whether [rest], put after a ["0"], makes the prefix ["0x"] or ["0X"]. *)
Definition hex_marker (rest : string) : bool :=
  match rest with
  | String x _ => (x =? "x")%char || (x =? "X")%char
  | EmptyString => false
  end.

(** The mathematical integer that [parseInt] reads, before it is turned
    into a Number; [None] when there is no digit to read (NaN). *)
Definition parseInt_exact (input : string) : option Z :=
  let '(negative, s) := strip_sign (trim_start input) in
  let '(R, s) := strip_hex_prefix s in
  if starts_with_digit R s
  then Some (if negative then - digits_value R s 0 else digits_value R s 0)
  else None.

(** [parseInt(string)].  The result is the Number nearest to the integer
    read.  [None] stands for a result that is no safe integer: NaN, or a
    Number of magnitude 2^53 or more.  Such a result is strictly equal to
    no safe integer. *)
Definition parseInt_string (input : string) : option int :=
  match parseInt_exact input with
  | Some v => to_int v
  | None => None
  end.

(** *** Array.prototype.filter with a callback that may throw *)

Fixpoint filter {A : Type} (f : A -> option bool) (l : list A) : option (list A) :=
  match l with
  | [] => Some []
  | x :: rest =>
      b <- f x ;;
      r <- filter f rest ;;
      Some (if b then x :: r else r)
  end.

(** The values that are not objects: converting one to a string cannot
    throw. *)
Definition primitive (v : value) : bool :=
  match v with
  | VArr _ | VObj _ => false
  | _ => true
  end.

End JS.

(** ** Requests, replies and asynchronous handlers *)

Module Http.

(** A route parameter: the text of the path segment, or the integer the
    route's [params] schema ([id: { type: "integer" }]) turns it into. *)
Inductive param : Type :=
| PStr (s : string)
| PNum (n : JS.int).

(** [String(id)], also what a template literal interpolates. *)
Definition param_string (id : param) : string :=
  match id with
  | PStr s => s
  | PNum n => JS.decimal (JS.Z_of n)
  end.

(** [parseInt(id)]: the argument is converted to a string first. *)
Definition parseInt (id : param) : option JS.int :=
  JS.parseInt_string (param_string id).

(** [n === parseInt(id)] for a stored number [n]: NaN, and any number that
    is not a safe integer, equals none. *)
Definition strict_eq (n : JS.int) (m : option JS.int) : bool :=
  match m with
  | Some k => JS.Z_of n =? JS.Z_of k
  | None => false
  end.

(** What a handler leaves to the framework: the reply's status code and the
    value it returned. *)
Record reply : Type := mkReply { statusCode : Z; payload : JS.value }.

(** A fresh reply has status 200. *)
Definition ok (body : JS.value) : reply := mkReply 200 body.

(** The object [{ error }] of the typedef [ServiceError]. *)
Definition ServiceError (error : string) : JS.value :=
  JS.VObj [ ("error", JS.VStr error) ].

(** What [fetch] resolves to: the status, and the body [json()] parses
    ([None] when it rejects). *)
Record response : Type := mkResponse { status : Z; json_body : option JS.value }.

(** [None]: [fetch] rejects (the service is unreachable). *)
Definition network : Type := string -> option response.

Inductive outcome (A : Type) : Type :=
| Returned (a : A)
| Thrown.
Arguments Returned {A} a.
Arguments Thrown {A}.

(** An [async] function body. *)
Inductive prog (A : Type) : Type :=
| Ret (a : A)
| Throw
| Fetch (url : string) (k : response -> prog A).
Arguments Ret {A} a.
Arguments Throw {A}.
Arguments Fetch {A} url k.

Fixpoint bind {A B : Type} (p : prog A) (f : A -> prog B) : prog B :=
  match p with
  | Ret a => f a
  | Throw => Throw
  | Fetch url k => Fetch url (fun r => bind (k r) f)
  end.

Notation "'await' x <- p ;; k" := (bind p (fun x => k))
  (at level 61, x name, p at next level, right associativity).

Definition fetch (url : string) : prog response := Fetch url Ret.

(** [response.json()]. *)
Definition json (r : response) : prog JS.value :=
  match json_body r with
  | Some v => Ret v
  | None => Throw
  end.

(** A synchronous computation that may throw. *)
Definition lift {A : Type} (m : option A) : prog A :=
  match m with
  | Some a => Ret a
  | None => Throw
  end.

(** The outcome of a handler on a network, with the URLs it requested. *)
Fixpoint run {A : Type} (net : network) (p : prog A) : outcome A * list string :=
  match p with
  | Ret a => (Returned a, [])
  | Throw => (Thrown, [])
  | Fetch url k =>
      match net url with
      | None => (Thrown, [url])
      | Some r => let '(o, trace) := run net (k r) in (o, url :: trace)
      end
  end.

End Http.

(** ** The schemas of the routes *)

Module Schema.
Import JS.

(** The JSON Schema keywords the three files use: [type] with the values
    [integer], [string], [object] and [array], [properties] and [items]. *)
Inductive schema : Type :=
| TInteger
| TString
| TObject (properties : list (string * schema))
| TArray (items : schema).

(** Validation: a value has the schema's type; a property the schema
    declares, when the object has it, validates against its schema; every
    element of an array validates against [items]. *)
Fixpoint validates (s : schema) (v : value) {struct s} : bool :=
  match s, v with
  | TInteger, VNum _ => true
  | TString, VStr _ => true
  | TObject properties, VObj props =>
      (fix each (declared : list (string * schema)) : bool :=
         match declared with
         | [] => true
         | (key, sk) :: rest =>
             match lookup key props with
             | Some x => validates sk x
             | None => true
             end && each rest
         end) properties
  | TArray items, VArr elems => forallb (validates items) elems
  | _, _ => false
  end.

(** The property names of an object value, and those a schema declares. *)
Definition keys (v : value) : list string :=
  match v with
  | VObj props => map fst props
  | _ => []
  end.

Definition declared (s : schema) : list string :=
  match s with
  | TObject properties => map fst properties
  | _ => []
  end.

End Schema.

(** ** services/player.js *)

Module PlayerService.
Import JS Http.

Record Player : Type :=
  mkPlayer { id : int; teamId : int; name : string; position : string }.

(** The in-memory seed data. *)
Definition players : list Player :=
  [ mkPlayer #1 #1 "Shohei Ohtani" "DH/P";
    mkPlayer #2 #1 "Mookie Betts" "2B";
    mkPlayer #3 #2 "Aaron Judge" "RF" ].

Definition to_value (p : Player) : value :=
  VObj [ ("id", VNum (id p)); ("teamId", VNum (teamId p));
         ("name", VStr (name p)); ("position", VStr (position p)) ].

(** GET / *)
Definition list_handler (players : list Player) : reply :=
  ok (VArr (map to_value players)).

(** GET /:id *)
Definition handler (players : list Player) (id : param) : reply :=
  match List.find (fun player => strict_eq (PlayerService.id player) (parseInt id)) players with
  | None => mkReply 404 (ServiceError "Player not found")
  | Some player => ok (to_value player)
  end.

Definition playerSchema : Schema.schema :=
  Schema.TObject
    [ ("id", Schema.TInteger); ("teamId", Schema.TInteger);
      ("name", Schema.TString); ("position", Schema.TString) ].

Definition errorSchema : Schema.schema :=
  Schema.TObject [ ("error", Schema.TString) ].

(** [response] of GET / and of GET /:id, by status code. *)
Definition list_response (status : Z) : option Schema.schema :=
  if status =? 200 then Some (Schema.TArray playerSchema) else None.

Definition handler_response (status : Z) : option Schema.schema :=
  if status =? 200 then Some playerSchema
  else if status =? 404 then Some errorSchema
  else None.

End PlayerService.

(** ** services/team.js *)

Module TeamService.
Import JS Http.

Record Team : Type := mkTeam { id : int; name : string; division : string }.

Definition teams : list Team :=
  [ mkTeam #1 "Los Angeles Dodgers" "NL West";
    mkTeam #2 "New York Yankees" "AL East" ].

Definition to_value (t : Team) : value :=
  VObj [ ("id", VNum (id t)); ("name", VStr (name t));
         ("division", VStr (division t)) ].

(** GET / *)
Definition list_handler (teams : list Team) : reply :=
  ok (VArr (map to_value teams)).

(** GET /:id *)
Definition handler (teams : list Team) (id : param) : reply :=
  match List.find (fun team => strict_eq (TeamService.id team) (parseInt id)) teams with
  | None => mkReply 404 (ServiceError "Team not found")
  | Some team => ok (to_value team)
  end.

Definition teamSchema : Schema.schema :=
  Schema.TObject
    [ ("id", Schema.TInteger); ("name", Schema.TString);
      ("division", Schema.TString) ].

Definition errorSchema : Schema.schema :=
  Schema.TObject [ ("error", Schema.TString) ].

(** [response] of GET / and of GET /:id, by status code. *)
Definition list_response (status : Z) : option Schema.schema :=
  if status =? 200 then Some (Schema.TArray teamSchema) else None.

Definition handler_response (status : Z) : option Schema.schema :=
  if status =? 200 then Some teamSchema
  else if status =? 404 then Some errorSchema
  else None.

End TeamService.

(** ** gateway.js *)

Module Gateway.
Import JS Http.

Module services.
Module player.
Definition url : string := "http://localhost:3001".
End player.
Module team.
Definition url : string := "http://localhost:3002".
End team.
End services.

(** The template literals [`${services.player.url}/${id}`] and
    [`${services.team.url}/${id}`]. *)
Definition player_endpoint (id : param) : string :=
  (services.player.url ++ "/" ++ param_string id)%string.

Definition team_endpoint (id : param) : string :=
  (services.team.url ++ "/" ++ param_string id)%string.

(** GET /players *)
Definition players_handler : prog reply :=
  await response <- fetch services.player.url ;;
  await body <- json response ;;
  Ret (ok body).

(** GET /teams *)
Definition teams_handler : prog reply :=
  await response <- fetch services.team.url ;;
  await body <- json response ;;
  Ret (ok body).

(** GET /players/:id *)
Definition player_handler (id : param) : prog reply :=
  await response <- fetch (player_endpoint id) ;;
  await body <- json response ;;
  Ret (ok body).

(** GET /teams/:id *)
Definition team_handler (id : param) : prog reply :=
  await response <- fetch (team_endpoint id) ;;
  await body <- json response ;;
  Ret (ok body).

(** The callback of the roster filter:
    [String(player.teamId) === String(teamId)]. *)
Definition same_team (teamId : param) (player : value) : option bool :=
  JS.bind (get player "teamId") (fun t =>
  JS.bind (JS_String t) (fun s =>
  Some (s =? param_string teamId)%string)).

(** [Array.isArray(players) ? players.filter(...) : []] *)
Definition roster_of (teamId : param) (players : value) : option (list value) :=
  match players with
  | VArr elems => JS.filter (same_team teamId) elems
  | _ => Some []
  end.

(** The object [{ team, roster }] of the typedef [Roster]. *)
Definition Roster (team : value) (roster : list value) : value :=
  VObj [ ("team", team); ("roster", VArr roster) ].

(** [team && team.error] *)
Definition team_and_error (team : value) : option value :=
  if truthy team then get team "error" else Some team.

(** GET /teams/:id/roster *)
Definition roster_handler (id : param) : prog reply :=
  let teamId := id in
  await teamRes <- fetch (team_endpoint teamId) ;;
  await team <- json teamRes ;;
  await failed <- lift (team_and_error team) ;;
  if truthy failed
  then Ret (mkReply 404 (ServiceError "Team not found"))
  else
    await playersRes <- fetch services.player.url ;;
    await players <- json playersRes ;;
    await roster <- lift (roster_of teamId players) ;;
    Ret (ok (Roster team roster)).

(** Whether the roster filter keeps [player]: its callback returned
    [true]. *)
Definition selects (teamId : param) (player : value) : bool :=
  match same_team teamId player with
  | Some true => true
  | _ => false
  end.

Definition playerSchema : Schema.schema :=
  Schema.TObject
    [ ("id", Schema.TInteger); ("teamId", Schema.TInteger);
      ("name", Schema.TString); ("position", Schema.TString) ].

Definition teamSchema : Schema.schema :=
  Schema.TObject
    [ ("id", Schema.TInteger); ("name", Schema.TString);
      ("division", Schema.TString) ].

Definition rosterSchema : Schema.schema :=
  Schema.TObject
    [ ("team", teamSchema); ("roster", Schema.TArray playerSchema) ].

Definition errorSchema : Schema.schema :=
  Schema.TObject [ ("error", Schema.TString) ].

(** [response] of GET /teams/:id/roster, by status code. *)
Definition roster_response (status : Z) : option Schema.schema :=
  if status =? 200 then Some rosterSchema
  else if status =? 404 then Some errorSchema
  else None.

End Gateway.

(** ** The three processes together *)

Module Deployment.
Import JS Http.

Fixpoint strip_prefix (p s : string) : option string :=
  match p with
  | EmptyString => Some s
  | String a p' =>
      match s with
      | String b s' => if (a =? b)%char then strip_prefix p' s' else None
      | EmptyString => None
      end
  end.

Definition unreserved (c : ascii) : bool :=
  let n := nat_of_ascii c in
  ((48 <=? n) && (n <=? 57))%nat || ((65 <=? n) && (n <=? 90))%nat
  || ((97 <=? n) && (n <=? 122))%nat
  || (c =? "-")%char || (c =? "_")%char || (c =? "~")%char
  || (c =? "+")%char || (c =? ".")%char.

Fixpoint all_chars (f : ascii -> bool) (s : string) : bool :=
  match s with
  | EmptyString => true
  | String c rest => f c && all_chars f rest
  end.

(** The path segments this model routes to a [/:id] handler: non-empty,
    made of characters a URL carries unchanged, and not a dot segment. *)
Definition plain_segment (s : string) : bool :=
  negb (s =? "")%string && all_chars unreserved s
  && negb (s =? ".")%string && negb (s =? "..")%string.

(** The reply as the caller's [fetch] sees it. *)
Definition serve (r : reply) : response :=
  mkResponse (statusCode r) (Some (payload r)).

(** *** The check of [params: { id: { type: "integer" } }]

    The framework checks the path segment against the route's schema before
    the handler runs, coercing it to the declared type: a string that is a
    numeric literal with an integer value becomes that number, and one that
    is no numeric literal is refused with status 400. *)

Definition is_digit (R : Z) (c : ascii) : bool :=
  match radix_digit R c with
  | Some _ => true
  | None => false
  end.

Fixpoint skip_digits (s : string) : string :=
  match s with
  | String c rest => if is_digit 10 c then skip_digits rest else s
  | EmptyString => s
  end.

(** Nothing, or an exponent part: [e] or [E], a sign or none, digits. *)
Definition exponent_or_end (s : string) : bool :=
  match s with
  | EmptyString => true
  | String c rest =>
      ((c =? "e")%char || (c =? "E")%char)
      && (let digits := snd (strip_sign rest) in
          starts_with_digit 10 digits && (skip_digits digits =? "")%string)
  end.

(** StrUnsignedDecimalLiteral. *)
Definition unsigned_decimal_literal (s : string) : bool :=
  if (s =? "Infinity")%string then true
  else if starts_with_digit 10 s
  then match skip_digits s with
       | String c rest =>
           if (c =? ".")%char then exponent_or_end (skip_digits rest)
           else exponent_or_end (String c rest)
       | EmptyString => true
       end
  else match s with
       | String c rest =>
           (c =? ".")%char && starts_with_digit 10 rest
           && exponent_or_end (skip_digits rest)
       | EmptyString => false
       end.

(** NonDecimalIntegerLiteral: [0b], [0o] or [0x] and digits of that radix. *)
Definition non_decimal_literal (s : string) : bool :=
  match s with
  | String c (String x rest) =>
      (c =? "0")%char && negb (rest =? "")%string
      && (if (x =? "x")%char || (x =? "X")%char then all_chars (is_digit 16) rest
          else if (x =? "o")%char || (x =? "O")%char then all_chars (is_digit 8) rest
          else if (x =? "b")%char || (x =? "B")%char then all_chars (is_digit 2) rest
          else false)
  | _ => false
  end.

(** Whether a non-empty string without white space is a
    StringNumericLiteral, that is whether [Number(s)] is not NaN. *)
Definition is_numeric_literal (s : string) : bool :=
  unsigned_decimal_literal (snd (strip_sign s)) || non_decimal_literal s.

(** The value of a string made of a sign or none and decimal digits only. *)
Definition integer_literal (s : string) : option Z :=
  let '(negative, digits) := strip_sign s in
  if starts_with_digit 10 digits && all_chars (is_digit 10) digits
  then Some (if negative then - digits_value 10 digits 0
             else digits_value 10 digits 0)
  else None.

Inductive checked : Type :=
| Accepted (id : param)
| Refused
| Unmodelled.

(** A safe integer written with digits only is accepted as that number; a
    string that is no numeric literal is refused.  The other numeric
    literals (a fraction, an exponent, another radix, [Infinity], an integer
    that is not safe) are outside the model. *)
Definition check_id (seg : string) : checked :=
  match integer_literal seg with
  | Some v =>
      match to_int v with
      | Some n => Accepted (PNum n)
      | None => Unmodelled
      end
  | None => if is_numeric_literal seg then Unmodelled else Refused
  end.

(** The framework's reply to a parameter it refuses. *)
Definition bad_request : reply :=
  mkReply 400
    (VObj [ ("statusCode", VNum #400); ("code", VStr "FST_ERR_VALIDATION");
            ("error", VStr "Bad Request");
            ("message", VStr "params/id must be integer") ]).

(** GET /:id as the service answers it: the check, then the handler. *)
Definition by_id (handler : param -> reply) (seg : string) : option reply :=
  match check_id seg with
  | Accepted id => Some (handler id)
  | Refused => Some bad_request
  | Unmodelled => None
  end.

(** A service with the routes [GET /] and [GET /:id]. *)
Definition route (list_reply : reply) (handler : param -> reply) (path : string)
  : option response :=
  match path with
  | EmptyString => Some (serve list_reply)
  | String c seg =>
      if (c =? "/")%char
      then if (seg =? "")%string then Some (serve list_reply)
           else if plain_segment seg
                then option_map serve (by_id handler seg)
                else None
      else None
  end.

(** The player service listens on port 3001 and the team service on port
    3002.  A URL outside the routes above, or with a parameter outside the
    model, has no answer here. *)
Definition network_of (players : list PlayerService.Player)
  (teams : list TeamService.Team) : network :=
  fun url =>
    match strip_prefix Gateway.services.player.url url with
    | Some path =>
        route (PlayerService.list_handler players) (PlayerService.handler players) path
    | None =>
        match strip_prefix Gateway.services.team.url url with
        | Some path =>
            route (TeamService.list_handler teams) (TeamService.handler teams) path
        | None => None
        end
    end.

(** A network of canned answers, as a test double: the player service's
    listing URL is answered with [players], every other URL with [team]. *)
Definition answering (team players : response) : network :=
  fun url =>
    if (url =? Gateway.services.player.url)%string
    then Some players
    else Some team.

End Deployment.

(** * Facts *)

(** ** Decimal numerals and parseInt *)

(** Case analysis on a decimal digit. *)
Ltac digit_cases d :=
  let H := fresh in
  assert (H : d = 0 \/ d = 1 \/ d = 2 \/ d = 3 \/ d = 4 \/ d = 5 \/ d = 6
              \/ d = 7 \/ d = 8 \/ d = 9) by lia;
  repeat (destruct H as [H | H]; [subst d | ]); [ .. | subst d ].

Section Numerals.
Import JS.

Lemma radix_digit_digit_char (d : Z) :
  0 <= d < 10 -> radix_digit 10 (digit_char d) = Some d.
Proof. intros Hd. digit_cases d; reflexivity. Qed.

Lemma digit_char_not_space (d : Z) :
  0 <= d < 10 -> is_white_space (digit_char d) = false.
Proof. intros Hd. digit_cases d; reflexivity. Qed.

Lemma digit_char_not_sign (d : Z) :
  0 <= d < 10 ->
  (digit_char d =? "-")%char = false /\ (digit_char d =? "+")%char = false.
Proof. intros Hd. digit_cases d; split; reflexivity. Qed.

Lemma digit_char_not_zero (d : Z) :
  0 < d < 10 -> (digit_char d =? "0")%char = false.
Proof. intros Hd. digit_cases d; try reflexivity; lia. Qed.

Lemma digits_fuel_append (fuel : nat) :
  forall n acc rest,
    (digits_fuel fuel n acc ++ rest)%string = digits_fuel fuel n (acc ++ rest)%string.
Proof.
  induction fuel as [| f IH]; intros n acc rest; simpl.
  - reflexivity.
  - destruct (n <? 10); [reflexivity | ].
    rewrite IH. reflexivity.
Qed.

Lemma pow2_step (f : nat) (n : Z) :
  0 <= n < 2 ^ Z.of_nat (S f) -> 0 <= n / 10 < 2 ^ Z.of_nat f.
Proof.
  intros [Hn Hlt].
  rewrite Nat2Z.inj_succ, Z.pow_succ_r in Hlt by lia.
  assert (0 < 2 ^ Z.of_nat f) by (apply Z.pow_pos_nonneg; lia).
  split.
  - apply Z.div_pos; lia.
  - apply Z.div_lt_upper_bound; lia.
Qed.

Lemma digits_fuel_enough (n : Z) :
  0 <= n -> 0 <= n < 2 ^ Z.of_nat (S (Z.to_nat (Z.log2 n))).
Proof.
  intros Hn. split; [assumption | ].
  rewrite Nat2Z.inj_succ, Z2Nat.id by apply Z.log2_nonneg.
  destruct (Z.eq_dec n 0) as [-> | Hnz].
  - reflexivity.
  - apply Z.log2_spec. lia.
Qed.

(** Reading back the digits written in front of [acc] continues from their
    value. *)
Lemma digits_value_digits_fuel (fuel : nat) :
  forall n acc,
    0 <= n < 2 ^ Z.of_nat fuel ->
    digits_value 10 (digits_fuel fuel n acc) 0 = digits_value 10 acc n.
Proof.
  induction fuel as [| f IH]; intros n acc Hn.
  - simpl in Hn. assert (n = 0) by lia. subst n. reflexivity.
  - cbn [digits_fuel].
    assert (Hmod : 0 <= n mod 10 < 10) by (apply Z.mod_pos_bound; lia).
    destruct (n <? 10) eqn:Hsmall.
    + apply Z.ltb_lt in Hsmall.
      cbn [digits_value]. rewrite radix_digit_digit_char by assumption.
      rewrite Z.mod_small by lia. reflexivity.
    + rewrite IH by (apply pow2_step; assumption).
      cbn [digits_value]. rewrite radix_digit_digit_char by assumption.
      f_equal. pose proof (Z.div_mod n 10). lia.
Qed.

(** The numeral of [n >= 0] begins with a digit, which is zero only for
    [n = 0]. *)
Lemma digits_fuel_head (f : nat) :
  forall n acc,
    0 <= n < 2 ^ Z.of_nat (S f) ->
    exists d tail,
      digits_fuel (S f) n acc = String (digit_char d) tail
      /\ 0 <= d < 10 /\ (0 < n -> 0 < d).
Proof.
  induction f as [| f IH]; intros n acc Hn.
  - exists n, acc. cbn [digits_fuel].
    change (2 ^ Z.of_nat 1) with 2 in Hn.
    assert (Hs : (n <? 10) = true) by (apply Z.ltb_lt; lia).
    rewrite Hs, Z.mod_small by lia. repeat split; lia.
  - remember (S f) as g eqn:Hg. cbn [digits_fuel].
    destruct (n <? 10) eqn:Hsmall.
    + apply Z.ltb_lt in Hsmall.
      exists n, acc. rewrite Z.mod_small by lia. repeat split; lia.
    + apply Z.ltb_ge in Hsmall. subst g.
      destruct (IH (n / 10) (String (digit_char (n mod 10)) acc))
        as (d & tail & Heq & Hd & Hpos).
      { apply pow2_step. assumption. }
      exists d, tail. split; [exact Heq | split; [exact Hd | ]].
      intros _. apply Hpos.
      apply Z.div_str_pos. lia.
Qed.

Lemma digits_head (n : Z) (rest : string) :
  0 <= n ->
  exists d tail,
    (digits n ++ rest)%string = String (digit_char d) tail
    /\ 0 <= d < 10 /\ (0 < n -> 0 < d) /\ (n = 0 -> d = 0 /\ tail = rest).
Proof.
  intros Hn. unfold digits. rewrite digits_fuel_append.
  destruct (Z.eq_dec n 0) as [-> | Hnz].
  - exists 0, rest. repeat split; try lia; reflexivity.
  - destruct (digits_fuel_head (Z.to_nat (Z.log2 n)) n ("" ++ rest)%string)
      as (d & tail & Heq & Hd & Hpos).
    { apply digits_fuel_enough. assumption. }
    exists d, tail. repeat split; try assumption; try lia.
Qed.

Lemma digits_value_digits (n : Z) (rest : string) :
  0 <= n -> digits_value 10 (digits n ++ rest)%string 0 = digits_value 10 rest n.
Proof.
  intros Hn. unfold digits. rewrite digits_fuel_append.
  apply digits_value_digits_fuel, digits_fuel_enough. assumption.
Qed.

Lemma digits_value_no_digit (R : Z) (rest : string) (acc : Z) :
  starts_with_digit R rest = false -> digits_value R rest acc = acc.
Proof.
  destruct rest as [| c rest]; [reflexivity | ]. simpl.
  destruct (radix_digit R c); [discriminate | reflexivity].
Qed.

Lemma strip_hex_prefix_digits (n : Z) (rest : string) :
  0 <= n -> (n = 0 -> hex_marker rest = false) ->
  strip_hex_prefix (digits n ++ rest)%string = (10, (digits n ++ rest)%string).
Proof.
  intros Hn Hhex.
  destruct (digits_head n rest Hn) as (d & tail & Heq & Hd & Hpos & Hzero).
  rewrite Heq. unfold strip_hex_prefix.
  destruct tail as [| x tail]; [reflexivity | ].
  destruct (Z.eq_dec n 0) as [-> | Hnz].
  - destruct (Hzero eq_refl) as [-> Htail]. subst rest.
    specialize (Hhex eq_refl). simpl in Hhex. rewrite Hhex. reflexivity.
  - rewrite digit_char_not_zero by lia. reflexivity.
Qed.

Lemma parse_unsigned_digits (n : Z) (rest : string) :
  0 <= n -> starts_with_digit 10 rest = false ->
  (n = 0 -> hex_marker rest = false) ->
  (let '(R, s) := strip_hex_prefix (digits n ++ rest)%string in
   if starts_with_digit R s then Some (digits_value R s 0) else None) = Some n.
Proof.
  intros Hn Hrest Hhex.
  rewrite strip_hex_prefix_digits by assumption.
  rewrite digits_value_digits, digits_value_no_digit by assumption.
  destruct (digits_head n rest Hn) as (d & tail & Heq & Hd & _).
  rewrite Heq. cbn [starts_with_digit].
  rewrite radix_digit_digit_char by assumption. reflexivity.
Qed.

(** [parseInt] reads a numeral back, whatever follows it, as long as that
    is not a further digit (or the [x] that makes ["0x"]). *)
Lemma parseInt_decimal_prefix (n : Z) (rest : string) :
  starts_with_digit 10 rest = false ->
  (n = 0 -> hex_marker rest = false) ->
  parseInt_exact (decimal n ++ rest)%string = Some n.
Proof.
  intros Hrest Hhex. unfold parseInt_exact, decimal.
  destruct (n <? 0) eqn:Hneg.
  - apply Z.ltb_lt in Hneg.
    change (String "-" (digits (- n)) ++ rest)%string
      with (String "-" (digits (- n) ++ rest)%string).
    change (trim_start (String "-" (digits (- n) ++ rest)%string))
      with (String "-" (digits (- n) ++ rest)%string).
    change (strip_sign (String "-" (digits (- n) ++ rest)%string))
      with (true, (digits (- n) ++ rest)%string).
    cbv beta iota.
    assert (P : (let '(R, s) := strip_hex_prefix (digits (- n) ++ rest)%string in
                 if starts_with_digit R s then Some (digits_value R s 0) else None)
                = Some (- n)).
    { apply parse_unsigned_digits; [lia | assumption | lia]. }
    destruct (strip_hex_prefix (digits (- n) ++ rest)%string) as [R s].
    destruct (starts_with_digit R s); [ | discriminate].
    injection P as ->. f_equal. lia.
  - apply Z.ltb_ge in Hneg.
    destruct (digits_head n rest Hneg) as (d & tail & Heq & Hd & _).
    assert (Htrim : trim_start (digits n ++ rest)%string = (digits n ++ rest)%string).
    { rewrite Heq. cbn [trim_start].
      rewrite digit_char_not_space by assumption. reflexivity. }
    rewrite Htrim.
    assert (Hsign : strip_sign (digits n ++ rest)%string = (false, (digits n ++ rest)%string)).
    { rewrite Heq. unfold strip_sign.
      destruct (digit_char_not_sign d Hd) as [-> ->]. reflexivity. }
    rewrite Hsign. cbv beta iota.
    pose proof (parse_unsigned_digits n rest Hneg Hrest Hhex) as P.
    destruct (strip_hex_prefix (digits n ++ rest)%string) as [R s].
    destruct (starts_with_digit R s); congruence.
Qed.

Lemma append_empty (s : string) : (s ++ "")%string = s.
Proof. induction s as [| c s IH]; simpl; [reflexivity | rewrite IH; reflexivity]. Qed.

Lemma parseInt_decimal (n : Z) : parseInt_exact (decimal n) = Some n.
Proof.
  rewrite <- (append_empty (decimal n)).
  apply parseInt_decimal_prefix; reflexivity.
Qed.

Lemma decimal_inj (n m : Z) : decimal n = decimal m -> n = m.
Proof.
  intros H. pose proof (parseInt_decimal n) as Hn.
  rewrite H, parseInt_decimal in Hn. congruence.
Qed.

Lemma decimal_eqb (n m : Z) : (decimal n =? decimal m)%string = (n =? m).
Proof.
  destruct (Z.eqb_spec n m) as [-> | Hne].
  - apply String.eqb_refl.
  - apply String.eqb_neq. intros H. apply Hne, decimal_inj, H.
Qed.

(** Safe integers are equal when their values are. *)
Lemma int_eq (a b : int) : Z_of a = Z_of b -> a = b.
Proof.
  destruct a as [x Hx], b as [y Hy]. simpl. intros ->.
  f_equal. apply UIP_dec, bool_dec.
Qed.

Lemma to_int_of (n : int) : to_int n = Some n.
Proof.
  destruct n as [v H]. unfold to_int. simpl.
  generalize (@eq_refl bool (safe v)). generalize (safe v) at 2 3.
  intros b. destruct b; intros E.
  - f_equal. apply int_eq. reflexivity.
  - congruence.
Qed.

Lemma to_int_value (v : Z) (n : int) : to_int v = Some n -> Z_of n = v.
Proof.
  unfold to_int. generalize (@eq_refl bool (safe v)). generalize (safe v) at 2 3.
  intros b. destruct b; intros E [=]. subst n. reflexivity.
Qed.

(** [parseInt(String(n))] is [n] for every safe integer. *)
Lemma parseInt_string_decimal (n : int) : parseInt_string (decimal n) = Some n.
Proof.
  unfold parseInt_string. rewrite parseInt_decimal. apply to_int_of.
Qed.


Lemma decimal_int_eqb (n m : int) :
  (decimal n =? decimal m)%string = (Z_of n =? Z_of m).
Proof. apply decimal_eqb. Qed.

End Numerals.

(** ** The directories' lookup *)

Section Lookup.
Import JS Http.

Variable A : Type.
Variable ident : A -> int.

(** The lookup of both services is
    [store.find((r) => r.id === parseInt(id))]. *)

Lemma strict_eq_true (n : int) (m : option int) :
  strict_eq n m = true <-> m = Some n.
Proof.
  destruct m as [k |]; simpl.
  - rewrite Z.eqb_eq. split.
    + intros H. f_equal. apply int_eq. symmetry. exact H.
    + intros [= ->]. reflexivity.
  - split; discriminate.
Qed.


Lemma lookup_some (store : list A) (id : param) (r : A) :
  List.find (fun x => strict_eq (ident x) (parseInt id)) store = Some r ->
  In r store /\ parseInt id = Some (ident r).
Proof.
  intros Hfind. apply List.find_some in Hfind.
  destruct Hfind as [Hin Heq]. apply strict_eq_true in Heq. auto.
Qed.



End Lookup.

Section Directories.
Import JS Http.





(** A team that is present is answered with some stored team of that id,
    the first one in the store. *)
Lemma team_handler_present (teams : list TeamService.Team) (id : param) (n : int) :
  parseInt id = Some n ->
  (exists t, In t teams /\ TeamService.id t = n) ->
  exists t, In t teams /\ TeamService.id t = n
            /\ TeamService.handler teams id = ok (TeamService.to_value t).
Proof.
  intros Hid (t0 & Hin0 & Hn0). unfold TeamService.handler.
  destruct (List.find _ teams) as [t |] eqn:Hfind.
  - apply (lookup_some _ TeamService.id) in Hfind. destruct Hfind as [Hin Heq].
    exists t. repeat split; [assumption | congruence].
  - pose proof (List.find_none _ _ Hfind t0 Hin0) as Hno. simpl in Hno.
    assert (Hyes : strict_eq (TeamService.id t0) (parseInt id) = true)
      by (apply strict_eq_true; congruence).
    congruence.
Qed.

(** The handlers read the parameter through [parseInt] only. *)
Lemma team_handler_param (teams : list TeamService.Team) (id : param) :
  TeamService.handler teams (PStr (param_string id)) = TeamService.handler teams id.
Proof. reflexivity. Qed.

Lemma player_handler_param (players : list PlayerService.Player) (id : param) :
  PlayerService.handler players (PStr (param_string id))
  = PlayerService.handler players id.
Proof. reflexivity. Qed.

End Directories.

(** ** Routing in the deployment *)

Section Routing.
Import JS Http Deployment.

Lemma unreserved_digit_char (d : Z) :
  0 <= d < 10 -> unreserved (digit_char d) = true.
Proof.
  intros Hd. digit_cases d; reflexivity.
Qed.

Lemma digit_char_not_dot (d : Z) :
  0 <= d < 10 -> (digit_char d =? ".")%char = false.
Proof.
  intros Hd. digit_cases d; reflexivity.
Qed.

Lemma all_unreserved_digits_fuel (fuel : nat) :
  forall n acc,
    0 <= n -> all_chars unreserved acc = true ->
    all_chars unreserved (digits_fuel fuel n acc) = true.
Proof.
  induction fuel as [| f IH]; intros n acc Hn Hacc; cbn [digits_fuel].
  - assumption.
  - assert (Hmod : 0 <= n mod 10 < 10) by (apply Z.mod_pos_bound; lia).
    assert (Hacc' : all_chars unreserved (String (digit_char (n mod 10)) acc) = true).
    { cbn [all_chars]. rewrite unreserved_digit_char by assumption. exact Hacc. }
    destruct (n <? 10); [exact Hacc' | ].
    apply IH; [apply Z.div_pos; lia | exact Hacc'].
Qed.

Lemma plain_segment_digits (n : Z) : 0 <= n -> plain_segment (digits n) = true.
Proof.
  intros Hn.
  assert (Hall : all_chars unreserved (digits n) = true)
    by (apply all_unreserved_digits_fuel; [assumption | reflexivity]).
  destruct (digits_head n "" Hn) as (d & tail & Heq & Hd & _).
  rewrite append_empty in Heq.
  unfold plain_segment. rewrite Hall. rewrite Heq.
  cbn [String.eqb]. rewrite digit_char_not_dot by assumption. reflexivity.
Qed.

Lemma plain_segment_decimal (n : Z) : plain_segment (decimal n) = true.
Proof.
  unfold decimal. destruct (n <? 0) eqn:Hneg.
  - apply Z.ltb_lt in Hneg.
    assert (Hall : all_chars unreserved (digits (- n)) = true)
      by (apply all_unreserved_digits_fuel; [lia | reflexivity]).
    unfold plain_segment. cbn [all_chars String.eqb]. rewrite Hall. reflexivity.
  - apply Z.ltb_ge in Hneg. apply plain_segment_digits. assumption.
Qed.

Lemma plain_segment_nonempty (seg : string) :
  plain_segment seg = true -> (seg =? "")%string = false.
Proof.
  unfold plain_segment. destruct (seg =? "")%string; [discriminate | reflexivity].
Qed.

Lemma all_digits_digits_fuel (fuel : nat) :
  forall n acc,
    0 <= n -> all_chars (is_digit 10) acc = true ->
    all_chars (is_digit 10) (digits_fuel fuel n acc) = true.
Proof.
  induction fuel as [| f IH]; intros n acc Hn Hacc; cbn [digits_fuel].
  - assumption.
  - assert (Hmod : 0 <= n mod 10 < 10) by (apply Z.mod_pos_bound; lia).
    assert (Hacc' : all_chars (is_digit 10) (String (digit_char (n mod 10)) acc) = true).
    { cbn [all_chars]. unfold is_digit at 1.
      rewrite radix_digit_digit_char by assumption. exact Hacc. }
    destruct (n <? 10); [exact Hacc' | ].
    apply IH; [apply Z.div_pos; lia | exact Hacc'].
Qed.

Lemma integer_literal_digits (n : Z) :
  0 <= n ->
  strip_sign (digits n) = (false, digits n)
  /\ (starts_with_digit 10 (digits n) && all_chars (is_digit 10) (digits n)) = true
  /\ digits_value 10 (digits n) 0 = n.
Proof.
  intros Hn.
  destruct (digits_head n "" Hn) as (d & tail & Heq & Hd & _).
  rewrite append_empty in Heq.
  split; [ | split].
  - rewrite Heq. unfold strip_sign.
    destruct (digit_char_not_sign d Hd) as [-> ->]. reflexivity.
  - assert (Hall : all_chars (is_digit 10) (digits n) = true)
      by (apply all_digits_digits_fuel; [assumption | reflexivity]).
    rewrite Hall, Heq. cbn [starts_with_digit].
    rewrite radix_digit_digit_char by assumption. reflexivity.
  - rewrite <- (append_empty (digits n)) at 1.
    rewrite digits_value_digits by assumption. reflexivity.
Qed.

Lemma integer_literal_decimal (n : Z) : integer_literal (decimal n) = Some n.
Proof.
  unfold integer_literal, decimal. destruct (n <? 0) eqn:Hneg.
  - apply Z.ltb_lt in Hneg.
    change (strip_sign (String "-" (digits (- n)))) with (true, digits (- n)).
    cbv beta iota.
    destruct (integer_literal_digits (- n)) as (_ & -> & ->); [lia | ].
    f_equal. lia.
  - apply Z.ltb_ge in Hneg.
    destruct (integer_literal_digits n Hneg) as (-> & -> & ->). reflexivity.
Qed.

Lemma check_id_decimal (n : int) : check_id (decimal n) = Accepted (PNum n).
Proof.
  unfold check_id. rewrite integer_literal_decimal, to_int_of. reflexivity.
Qed.

Lemma skip_digits_all (s : string) :
  all_chars (is_digit 10) s = true -> skip_digits s = "".
Proof.
  induction s as [| c s IH]; [reflexivity | ].
  cbn [all_chars skip_digits]. intros H. apply andb_prop in H.
  destruct H as [-> Hs]. apply IH. exact Hs.
Qed.

(** A string of digits with or without a sign is a numeric literal. *)
Lemma integer_literal_numeric (s : string) (v : Z) :
  integer_literal s = Some v -> is_numeric_literal s = true.
Proof.
  unfold integer_literal, is_numeric_literal.
  destruct (strip_sign s) as [negative digits]. cbn [snd].
  destruct (starts_with_digit 10 digits) eqn:Hstart; [ | discriminate].
  destruct (all_chars (is_digit 10) digits) eqn:Hall; [ | discriminate].
  intros _. unfold unsigned_decimal_literal.
  destruct (digits =? "Infinity")%string; [reflexivity | ].
  rewrite Hstart, (skip_digits_all digits Hall). reflexivity.
Qed.

Lemma check_id_refused (seg : string) :
  is_numeric_literal seg = false -> check_id seg = Refused.
Proof.
  intros Hnan. unfold check_id.
  destruct (integer_literal seg) as [v |] eqn:Hint.
  - apply integer_literal_numeric in Hint. congruence.
  - rewrite Hnan. reflexivity.
Qed.

Lemma route_numeral (list_reply : reply) (handler : param -> reply) (n : int) :
  route list_reply handler (String "/" (decimal n))
  = Some (serve (handler (PNum n))).
Proof.
  unfold route. change ("/" =? "/")%char with true. cbv iota.
  rewrite (plain_segment_nonempty _ (plain_segment_decimal n)).
  rewrite plain_segment_decimal. unfold by_id.
  rewrite check_id_decimal. reflexivity.
Qed.

Lemma route_refused (list_reply : reply) (handler : param -> reply) (seg : string) :
  plain_segment seg = true -> is_numeric_literal seg = false ->
  route list_reply handler (String "/" seg) = Some (serve bad_request).
Proof.
  intros Hplain Hnan. unfold route. change ("/" =? "/")%char with true. cbv iota.
  rewrite (plain_segment_nonempty seg Hplain), Hplain. unfold by_id.
  rewrite (check_id_refused seg Hnan). reflexivity.
Qed.

Variable players : list PlayerService.Player.
Variable teams : list TeamService.Team.

Lemma network_players :
  network_of players teams Gateway.services.player.url
  = Some (serve (PlayerService.list_handler players)).
Proof. reflexivity. Qed.

Lemma network_teams :
  network_of players teams Gateway.services.team.url
  = Some (serve (TeamService.list_handler teams)).
Proof. reflexivity. Qed.

Lemma network_player (id : param) (n : int) :
  param_string id = decimal n ->
  network_of players teams (Gateway.player_endpoint id)
  = Some (serve (PlayerService.handler players (PNum n))).
Proof.
  intros Hid.
  change (network_of players teams (Gateway.player_endpoint id))
    with (route (PlayerService.list_handler players) (PlayerService.handler players)
            (String "/" (param_string id))).
  rewrite Hid. apply route_numeral.
Qed.

Lemma network_team (id : param) (n : int) :
  param_string id = decimal n ->
  network_of players teams (Gateway.team_endpoint id)
  = Some (serve (TeamService.handler teams (PNum n))).
Proof.
  intros Hid.
  change (network_of players teams (Gateway.team_endpoint id))
    with (route (TeamService.list_handler teams) (TeamService.handler teams)
            (String "/" (param_string id))).
  rewrite Hid. apply route_numeral.
Qed.

Lemma network_player_refused (id : param) :
  plain_segment (param_string id) = true ->
  is_numeric_literal (param_string id) = false ->
  network_of players teams (Gateway.player_endpoint id) = Some (serve bad_request).
Proof.
  intros Hplain Hnan.
  change (network_of players teams (Gateway.player_endpoint id))
    with (route (PlayerService.list_handler players) (PlayerService.handler players)
            (String "/" (param_string id))).
  apply route_refused; assumption.
Qed.

Lemma network_team_refused (id : param) :
  plain_segment (param_string id) = true ->
  is_numeric_literal (param_string id) = false ->
  network_of players teams (Gateway.team_endpoint id) = Some (serve bad_request).
Proof.
  intros Hplain Hnan.
  change (network_of players teams (Gateway.team_endpoint id))
    with (route (TeamService.list_handler teams) (TeamService.handler teams)
            (String "/" (param_string id))).
  apply route_refused; assumption.
Qed.

End Routing.

(** ** Running the gateway's handlers *)

Section Running.
Import JS Http Gateway.

Variable net : network.

Lemma run_player_handler (id : param) :
  run net (player_handler id) =
  match net (player_endpoint id) with
  | None => (Thrown, [player_endpoint id])
  | Some response =>
      match json_body response with
      | None => (Thrown, [player_endpoint id])
      | Some body => (Returned (ok body), [player_endpoint id])
      end
  end.
Proof.
  unfold player_handler, fetch. cbn [bind run].
  destruct (net (player_endpoint id)) as [response |]; [ | reflexivity].
  unfold json. destruct (json_body response); reflexivity.
Qed.

Lemma run_roster_handler (id : param) :
  run net (roster_handler id) =
  match net (team_endpoint id) with
  | None => (Thrown, [team_endpoint id])
  | Some teamRes =>
      match json_body teamRes with
      | None => (Thrown, [team_endpoint id])
      | Some team =>
          match team_and_error team with
          | None => (Thrown, [team_endpoint id])
          | Some failed =>
              if truthy failed
              then (Returned (mkReply 404 (ServiceError "Team not found")),
                    [team_endpoint id])
              else
                match net services.player.url with
                | None => (Thrown, [team_endpoint id; services.player.url])
                | Some playersRes =>
                    match json_body playersRes with
                    | None => (Thrown, [team_endpoint id; services.player.url])
                    | Some players =>
                        match roster_of id players with
                        | None => (Thrown, [team_endpoint id; services.player.url])
                        | Some roster =>
                            (Returned (ok (Roster team roster)),
                             [team_endpoint id; services.player.url])
                        end
                    end
                end
          end
      end
  end.
Proof.
  unfold roster_handler, fetch. cbn [bind run].
  destruct (net (team_endpoint id)) as [teamRes |]; [ | reflexivity].
  unfold json at 1. destruct (json_body teamRes) as [team |]; [ | reflexivity].
  cbn [bind run]. unfold lift at 1.
  destruct (team_and_error team) as [failed |]; [ | reflexivity].
  cbn [bind run]. destruct (truthy failed); [reflexivity | ].
  cbn [bind run].
  destruct (net services.player.url) as [playersRes |]; [ | reflexivity].
  unfold json. destruct (json_body playersRes) as [players |]; [ | reflexivity].
  cbn [bind run]. unfold lift.
  destruct (roster_of id players); reflexivity.
Qed.

End Running.

(** ** The team check and the roster filter *)

Section Composition.
Import JS Http Gateway.

Lemma get_of_truthy (team : value) (key : string) :
  truthy team = true -> exists e, get team key = Some e.
Proof.
  destruct team; simpl; intros H; try discriminate; eexists; reflexivity.
Qed.

Lemma team_and_error_falsy (team : value) :
  truthy team = false -> team_and_error team = Some team.
Proof. intros H. unfold team_and_error. rewrite H. reflexivity. Qed.

Lemma team_and_error_truthy (team e : value) :
  truthy team = true -> get team "error" = Some e -> team_and_error team = Some e.
Proof. intros H He. unfold team_and_error. rewrite H. exact He. Qed.

(** [team && team.error] never throws. *)
Lemma team_and_error_total (team : value) :
  exists failed, team_and_error team = Some failed.
Proof.
  unfold team_and_error. destruct (truthy team) eqn:H.
  - apply get_of_truthy. assumption.
  - eexists. reflexivity.
Qed.

(** The condition of the [if] holds exactly when the payload is truthy and
    so is its [error] property. *)
Lemma team_check_true (team failed : value) :
  team_and_error team = Some failed ->
  (truthy failed = true <->
   truthy team = true /\ exists e, get team "error" = Some e /\ truthy e = true).
Proof.
  unfold team_and_error. destruct (truthy team) eqn:Ht; intros Hf.
  - split.
    + intros H. split; [reflexivity | ]. exists failed. auto.
    + intros [_ (e & He & Hte)]. congruence.
  - injection Hf as <-. split.
    + congruence.
    + intros [H _]. discriminate.
Qed.

Lemma team_check_false (team : value) :
  (truthy team = false
   \/ exists e, get team "error" = Some e /\ truthy e = false) ->
  exists failed, team_and_error team = Some failed /\ truthy failed = false.
Proof.
  intros [Hfalsy | (e & He & Hte)].
  - exists team. split; [apply team_and_error_falsy | ]; assumption.
  - destruct (truthy team) eqn:Ht.
    + exists e. split; [apply team_and_error_truthy | ]; assumption.
    + exists team. split; [apply team_and_error_falsy | ]; assumption.
Qed.

Lemma same_team_true (teamId : param) (player : value) :
  same_team teamId player = Some true <->
  exists t, get player "teamId" = Some t
            /\ JS_String t = Some (param_string teamId).
Proof.
  unfold same_team, JS.bind. split.
  - destruct (get player "teamId") as [t |]; [ | discriminate].
    destruct (JS_String t) as [s |] eqn:Hs; [ | discriminate].
    intros [= Heq]. apply String.eqb_eq in Heq. subst s.
    exists t. auto.
  - intros (t & -> & ->). rewrite String.eqb_refl. reflexivity.
Qed.

Lemma filter_In {A : Type} (f : A -> option bool) (l : list A) :
  forall r, JS.filter f l = Some r ->
            forall x, In x r <-> In x l /\ f x = Some true.
Proof.
  induction l as [| a l IH]; simpl; intros r Hr x.
  - injection Hr as <-. simpl. tauto.
  - unfold JS.bind in Hr.
    destruct (f a) as [b |] eqn:Hfa; [ | discriminate].
    destruct (JS.filter f l) as [r' |]; [ | discriminate].
    specialize (IH r' eq_refl x).
    injection Hr as <-. destruct b; simpl; rewrite IH; split.
    + intros [-> | [Hin Hfx]]; auto.
    + intros [[-> | Hin] Hfx]; auto.
    + intros [Hin Hfx]; auto.
    + intros [[-> | Hin] Hfx]; [congruence | auto].
Qed.

(** Filtering what the filter kept keeps all of it, in place. *)
Lemma filter_idempotent {A : Type} (f : A -> option bool) (l : list A) :
  forall r, JS.filter f l = Some r -> JS.filter f r = Some r.
Proof.
  induction l as [| a l IH]; simpl; intros r Hr.
  - injection Hr as <-. reflexivity.
  - unfold JS.bind in Hr.
    destruct (f a) as [b |] eqn:Hfa; [ | discriminate].
    destruct (JS.filter f l) as [r' |]; [ | discriminate].
    specialize (IH r' eq_refl).
    injection Hr as <-. destruct b; [ | exact IH].
    simpl. unfold JS.bind. rewrite Hfa, IH. reflexivity.
Qed.

(** The filter never throws on a listing of [Player] records. *)
Lemma same_team_player (teamId : param) (n : Z) (p : PlayerService.Player) :
  param_string teamId = decimal n ->
  same_team teamId (PlayerService.to_value p)
  = Some (PlayerService.teamId p =? n).
Proof.
  intros Hid. unfold same_team, PlayerService.to_value.
  change (get (VObj _) "teamId") with (Some (VNum (PlayerService.teamId p))).
  cbn [JS.bind JS_String]. rewrite Hid, decimal_eqb. reflexivity.
Qed.

Lemma roster_of_players (teamId : param) (n : Z)
  (players : list PlayerService.Player) :
  param_string teamId = decimal n ->
  roster_of teamId (VArr (map PlayerService.to_value players))
  = Some (map PlayerService.to_value
            (List.filter (fun p => PlayerService.teamId p =? n) players)).
Proof.
  intros Hid. unfold roster_of.
  induction players as [| p players IH]; [reflexivity | ].
  cbn [map JS.filter List.filter].
  rewrite (same_team_player teamId n p Hid). cbn [JS.bind].
  rewrite IH. cbn [JS.bind].
  destruct (PlayerService.teamId p =? n); reflexivity.
Qed.

End Composition.

(** * The claims *)

Section Claims.
Import JS Http Gateway Deployment.

(** The gateway's [GET /players/:id] forwards the directory's body and
    always replies 200, whatever the directory's status was. *)
Lemma player_proxy_reply (players : list PlayerService.Player)
  (teams : list TeamService.Team) (id : param) (n : int) :
  param_string id = decimal n ->
  run (network_of players teams) (player_handler id)
  = (Returned (mkReply 200 (payload (PlayerService.handler players (PNum n)))),
     [player_endpoint id]).
Proof.
  intros Hid. rewrite run_player_handler, (network_player players teams id n Hid).
  reflexivity.
Qed.

(** C1. The gateway's ProxyById("players", id) is meant to answer exactly as
    Player Directory's GetById(id) does, in body and in status.  On the seed
    data and the id 999 the directory replies 404 with
    [{ error: "Player not found" }], and the gateway forwards that body under
    status 200: the handler returns the parsed body and never sets the
    reply's status. *)
Theorem player_proxy_drops_status :
  run (network_of PlayerService.players TeamService.teams)
      (player_handler (PStr "999"))
  = (Returned (mkReply 200 (ServiceError "Player not found")),
     ["http://localhost:3001/999"])
  /\ PlayerService.handler PlayerService.players (PStr "999")
     = mkReply 404 (ServiceError "Player not found").
Proof. split; reflexivity. Qed.



Lemma filter_no_match {A : Type} (f : A -> bool) (l : list A) :
  (forall x, In x l -> f x = false) -> List.filter f l = [].
Proof.
  induction l as [| a l IH]; intros H; [reflexivity | ].
  simpl. rewrite (H a (or_introl eq_refl)). apply IH.
  intros x Hx. apply H. right. exact Hx.
Qed.

(** C3. For every team id [n] that Team Directory holds, GetRoster replies
    200 with the object [{ team, roster }]: [team] is Team Directory's
    payload for that id, a stored team whose [id] property is [n], and
    [roster] is Player Directory's listing restricted to the players whose
    teamId is [n], in the listing's order.  When no player matches, [roster]
    is the empty array. *)
Theorem roster_known_team (players : list PlayerService.Player)
  (teams : list TeamService.Team) (id : param) (n : int) :
  param_string id = decimal n ->
  (exists t, In t teams /\ TeamService.id t = n) ->
  exists t,
    In t teams /\ TeamService.id t = n
    /\ get (TeamService.to_value t) "id" = Some (VNum n)
    /\ by_id (TeamService.handler teams) (param_string id)
       = Some (mkReply 200 (TeamService.to_value t))
    /\ run (network_of players teams) (roster_handler id)
       = (Returned
            (mkReply 200
               (VObj
                  [ ("team", TeamService.to_value t);
                    ("roster",
                     VArr (map PlayerService.to_value
                             (List.filter
                                (fun p => PlayerService.teamId p =? n) players))) ])),
          [team_endpoint id; services.player.url])
    /\ ((forall p, In p players -> PlayerService.teamId p <> n) ->
        run (network_of players teams) (roster_handler id)
        = (Returned
             (mkReply 200
                (VObj [ ("team", TeamService.to_value t); ("roster", VArr []) ])),
           [team_endpoint id; services.player.url])).
Proof.
  intros Hid Hpresent.
  assert (Hparse : parseInt (PNum n) = Some n) by apply parseInt_string_decimal.
  destruct (team_handler_present teams (PNum n) n Hparse Hpresent)
    as (t & Hin & Hn & Hreply).
  assert (Hrun : run (network_of players teams) (roster_handler id)
                 = (Returned
                      (mkReply 200
                         (VObj
                            [ ("team", TeamService.to_value t);
                              ("roster",
                               VArr (map PlayerService.to_value
                                       (List.filter
                                          (fun p => PlayerService.teamId p =? n)
                                          players))) ])),
                    [team_endpoint id; services.player.url])).
  { rewrite run_roster_handler, (network_team players teams id n Hid), Hreply.
    cbn [serve json_body payload ok]. rewrite network_players.
    cbn [serve json_body payload ok PlayerService.list_handler].
    rewrite (roster_of_players id n players Hid). reflexivity. }
  exists t. split; [exact Hin | split; [exact Hn | split; [ | split; [ | split]]]].
  - rewrite <- Hn. reflexivity.
  - rewrite Hid. unfold by_id. rewrite check_id_decimal, Hreply. reflexivity.
  - exact Hrun.
  - intros Hnone. rewrite Hrun, filter_no_match; [reflexivity | ].
    intros p Hp. apply Z.eqb_neq. intros Heq.
    apply (Hnone p Hp). apply int_eq. exact Heq.
Qed.

Lemma roster_known_team_witness :
  (exists t,
      In t TeamService.teams /\ TeamService.id t = #1
      /\ run (network_of PlayerService.players TeamService.teams)
             (roster_handler (PNum #1))
         = (Returned
              (mkReply 200
                 (VObj
                    [ ("team", TeamService.to_value t);
                      ("roster",
                       VArr (map PlayerService.to_value
                               [ PlayerService.mkPlayer #1 #1 "Shohei Ohtani" "DH/P";
                                 PlayerService.mkPlayer #2 #1 "Mookie Betts" "2B" ])) ])),
            [team_endpoint (PNum #1); services.player.url]))
  /\
  (exists t,
      In t TeamService.teams /\ TeamService.id t = #2
      /\ run (network_of [ PlayerService.mkPlayer #1 #1 "Shohei Ohtani" "DH/P" ]
                         TeamService.teams)
             (roster_handler (PStr "2"))
         = (Returned
              (mkReply 200
                 (VObj [ ("team", TeamService.to_value t); ("roster", VArr []) ])),
            [team_endpoint (PStr "2"); services.player.url])).
Proof.
  split.
  - destruct (roster_known_team PlayerService.players TeamService.teams
                (PNum #1) #1 eq_refl) as (t & Hin & Hid & _ & _ & Hrun & _).
    + exists (TeamService.mkTeam #1 "Los Angeles Dodgers" "NL West").
      split; [left; reflexivity | reflexivity].
    + exists t. split; [exact Hin | split; [exact Hid | exact Hrun]].
  - destruct (roster_known_team
                [ PlayerService.mkPlayer #1 #1 "Shohei Ohtani" "DH/P" ]
                TeamService.teams (PStr "2") #2 eq_refl)
      as (t & Hin & Hid & _ & _ & _ & Hempty).
    + exists (TeamService.mkTeam #2 "New York Yankees" "AL East").
      split; [right; left; reflexivity | reflexivity].
    + exists t. split; [exact Hin | split; [exact Hid | ]].
      apply Hempty. intros p [<- | []]. discriminate.
Defined.

(** C4, as the claim states it, fails: a payload that has an [error] field
    whose value is the empty string does not stop the handler, which goes on
    to Player Directory and replies 200. *)
Lemma error_field_presence_counterexample :
  ~ (forall (net : network) (id : param) (teamRes : response)
            (props : list (string * value)),
        net (team_endpoint id) = Some teamRes ->
        json_body teamRes = Some (VObj props) ->
        has_key "error" props = true ->
        run net (roster_handler id)
        = (Returned (mkReply 404 (ServiceError "Team not found")),
           [team_endpoint id])).
Proof.
  intros H.
  specialize (H (answering (mkResponse 404 (Some (VObj [ ("error", VStr "") ])))
                           (mkResponse 200 (Some (VArr []))))
                (PStr "1")
                (mkResponse 404 (Some (VObj [ ("error", VStr "") ])))
                [ ("error", VStr "") ]
                eq_refl eq_refl eq_refl).
  vm_compute in H. discriminate H.
Qed.

(** C4, amended.  GetRoster judges the Team Directory outcome by the payload
    alone, whatever the status of the response: when the payload is truthy
    and its [error] property is truthy, the handler replies 404 with
    [{ error: "Team not found" }] having requested nothing from Player
    Directory; otherwise it requests the player listing, and the reply it
    composes carries the payload itself as [team]. *)
Theorem team_check_by_truthiness (net : network) (id : param) (status : Z)
  (team : value) :
  net (team_endpoint id) = Some (mkResponse status (Some team)) ->
  ((truthy team = true
    /\ exists e, get team "error" = Some e /\ truthy e = true) ->
   run net (roster_handler id)
   = (Returned (mkReply 404 (ServiceError "Team not found")), [team_endpoint id]))
  /\
  (~ (truthy team = true
      /\ exists e, get team "error" = Some e /\ truthy e = true) ->
   exists o,
     run net (roster_handler id) = (o, [team_endpoint id; services.player.url])
     /\ forall pstatus players roster,
          net services.player.url = Some (mkResponse pstatus (Some players)) ->
          roster_of id players = Some roster ->
          o = Returned (ok (Roster team roster))).
Proof.
  intros Hnet. rewrite run_roster_handler, Hnet. cbn [json_body].
  destruct (team_and_error_total team) as [failed Hfailed]. rewrite Hfailed.
  pose proof (team_check_true team failed Hfailed) as Hcheck.
  split.
  - intros Hyes. apply Hcheck in Hyes. rewrite Hyes. reflexivity.
  - intros Hno. destruct (truthy failed) eqn:Hf.
    + elim Hno. apply Hcheck. reflexivity.
    + destruct (net services.player.url) as [playersRes |] eqn:Hplayers.
      * destruct playersRes as [pstatus0 body]. cbn [json_body].
        destruct body as [players0 |].
        -- destruct (roster_of id players0) as [roster0 |] eqn:Hroster;
             (eexists; split; [reflexivity | ]);
             intros pstatus players roster [= _ <-] Hr; congruence.
        -- eexists; split; [reflexivity | ]. intros ? ? ? [=].
      * eexists; split; [reflexivity | ]. intros ? ? ? [=].
Qed.

Lemma team_check_by_truthiness_witness :
  run (answering (mkResponse 200 (Some (ServiceError "gone")))
                 (mkResponse 200 (Some (VArr []))))
      (roster_handler (PStr "1"))
  = (Returned (mkReply 404 (ServiceError "Team not found")),
     [team_endpoint (PStr "1")])
  /\
  exists o,
    run (answering (mkResponse 404 (Some (VObj [ ("error", VStr "") ])))
                   (mkResponse 200 (Some (VArr []))))
        (roster_handler (PStr "1"))
    = (o, [team_endpoint (PStr "1"); services.player.url])
    /\ forall pstatus players roster,
         answering (mkResponse 404 (Some (VObj [ ("error", VStr "") ])))
                   (mkResponse 200 (Some (VArr []))) services.player.url
         = Some (mkResponse pstatus (Some players)) ->
         roster_of (PStr "1") players = Some roster ->
         o = Returned (ok (Roster (VObj [ ("error", VStr "") ]) roster)).
Proof.
  split.
  - apply (team_check_by_truthiness
             (answering (mkResponse 200 (Some (ServiceError "gone")))
                        (mkResponse 200 (Some (VArr []))))
             (PStr "1") 200 (ServiceError "gone")).
    + reflexivity.
    + split; [reflexivity | ]. exists (VStr "gone"). split; reflexivity.
  - apply (team_check_by_truthiness
             (answering (mkResponse 404 (Some (VObj [ ("error", VStr "") ])))
                        (mkResponse 200 (Some (VArr []))))
             (PStr "1") 404 (VObj [ ("error", VStr "") ])).
    + reflexivity.
    + intros [_ (e & He & Hte)]. injection He as <-. discriminate Hte.
Defined.

(** C5. The roster filter selects a player exactly when the string form of
    its [teamId] equals the string form of the requested team id; so, for a
    request for team [n], a [teamId] sent as the number [n] and one sent as
    the numeral of [n] in a string are both selected. *)
Theorem roster_filter_compares_strings :
  (forall (teamId : param) (elems roster : list value),
      roster_of teamId (VArr elems) = Some roster ->
      forall player,
        In player roster <->
        In player elems
        /\ exists t, get player "teamId" = Some t
                     /\ JS_String t = Some (param_string teamId))
  /\
  (forall (teamId : param) (n : int) (others : list (string * value)),
      param_string teamId = decimal n ->
      same_team teamId (VObj (("teamId", VNum n) :: others)) = Some true
      /\ same_team teamId (VObj (("teamId", VStr (decimal n)) :: others)) = Some true).
Proof.
  split.
  - intros teamId elems roster Hroster player.
    rewrite (filter_In (same_team teamId) elems roster Hroster player).
    rewrite same_team_true. reflexivity.
  - intros teamId n others Hid.
    split; apply same_team_true; eexists; (split; [reflexivity | ]);
      cbn [JS_String]; rewrite Hid; reflexivity.
Qed.

Lemma roster_filter_compares_strings_witness :
  (forall player,
      In player [ VObj [ ("teamId", VNum #1) ]; VObj [ ("teamId", VStr "1") ] ] <->
      In player [ VObj [ ("teamId", VNum #1) ]; VObj [ ("teamId", VStr "1") ];
                  VObj [ ("teamId", VNum #2) ] ]
      /\ exists t, get player "teamId" = Some t
                   /\ JS_String t = Some (param_string (PStr "1")))
  /\ same_team (PStr "1") (VObj [ ("teamId", VNum #1) ]) = Some true
  /\ same_team (PStr "1") (VObj [ ("teamId", VStr (decimal 1)) ]) = Some true.
Proof.
  split.
  - apply (proj1 roster_filter_compares_strings (PStr "1")).
    reflexivity.
  - apply (proj2 roster_filter_compares_strings (PStr "1") #1 []).
    reflexivity.
Defined.

(** C6. When the payload obtained from Player Directory is not an array,
    GetRoster takes the roster to be empty and still replies 200 with
    [{ team, roster: [] }]. *)
Theorem roster_non_array_players (net : network) (id : param)
  (tstatus pstatus : Z) (team players : value) :
  net (team_endpoint id) = Some (mkResponse tstatus (Some team)) ->
  (truthy team = false
   \/ exists e, get team "error" = Some e /\ truthy e = false) ->
  net services.player.url = Some (mkResponse pstatus (Some players)) ->
  isArray players = false ->
  run net (roster_handler id)
  = (Returned (mkReply 200 (VObj [ ("team", team); ("roster", VArr []) ])),
     [team_endpoint id; services.player.url]).
Proof.
  intros Hteam Hpass Hplayers Hshape.
  rewrite run_roster_handler, Hteam. cbn [json_body].
  destruct (team_check_false team Hpass) as (failed & -> & ->).
  rewrite Hplayers. cbn [json_body].
  destruct players; try discriminate Hshape; reflexivity.
Qed.

Lemma roster_non_array_players_witness :
  run (answering
         (mkResponse 200
            (Some (TeamService.to_value
                     (TeamService.mkTeam #1 "Los Angeles Dodgers" "NL West"))))
         (mkResponse 200 (Some (VObj []))))
      (roster_handler (PStr "1"))
  = (Returned
       (mkReply 200
          (VObj [ ("team",
                   TeamService.to_value
                     (TeamService.mkTeam #1 "Los Angeles Dodgers" "NL West"));
                  ("roster", VArr []) ])),
     [team_endpoint (PStr "1"); services.player.url]).
Proof.
  apply (roster_non_array_players _ (PStr "1") 200 200 _ (VObj [])).
  - reflexivity.
  - right. exists VUndefined. split; reflexivity.
  - reflexivity.
  - reflexivity.
Defined.






(** C8. Roster computation is deterministic and idempotent: two runs of
    GetRoster against networks that give the same two directory answers have
    the same outcome, and the filter applied to a roster it produced gives
    that roster back unchanged. *)
Theorem roster_idempotent :
  (forall (net1 net2 : network) (id : param),
      net1 (team_endpoint id) = net2 (team_endpoint id) ->
      net1 services.player.url = net2 services.player.url ->
      run net1 (roster_handler id) = run net2 (roster_handler id))
  /\
  (forall (teamId : param) (players : value) (roster : list value),
      roster_of teamId players = Some roster ->
      roster_of teamId (VArr roster) = Some roster).
Proof.
  split.
  - intros net1 net2 id Hteam Hplayers.
    rewrite !run_roster_handler, Hteam, Hplayers. reflexivity.
  - intros teamId players roster Hroster. unfold roster_of in *.
    destruct players; try (injection Hroster as <-; reflexivity).
    apply (filter_idempotent (same_team teamId) elems). assumption.
Qed.

Lemma roster_idempotent_witness :
  run (network_of PlayerService.players TeamService.teams) (roster_handler (PStr "1"))
  = run (answering
           (serve (TeamService.handler TeamService.teams (PStr "1")))
           (serve (PlayerService.list_handler PlayerService.players)))
        (roster_handler (PStr "1"))
  /\ roster_of (PNum #1)
       (VArr (map PlayerService.to_value
                [ PlayerService.mkPlayer #1 #1 "Shohei Ohtani" "DH/P";
                  PlayerService.mkPlayer #2 #1 "Mookie Betts" "2B" ]))
     = Some (map PlayerService.to_value
               [ PlayerService.mkPlayer #1 #1 "Shohei Ohtani" "DH/P";
                 PlayerService.mkPlayer #2 #1 "Mookie Betts" "2B" ]).
Proof.
  split.
  - apply (proj1 roster_idempotent); reflexivity.
  - apply (proj2 roster_idempotent (PNum #1)
             (VArr (map PlayerService.to_value PlayerService.players))).
    reflexivity.
Defined.






End Claims.

(** * Further properties of the three files *)

(** ** The proxy routes *)

Section Proxies.
Import JS Http Gateway Deployment.

Lemma run_players_handler (net : network) :
  run net players_handler =
  match net services.player.url with
  | None => (Thrown, [services.player.url])
  | Some response =>
      match json_body response with
      | None => (Thrown, [services.player.url])
      | Some body => (Returned (ok body), [services.player.url])
      end
  end.
Proof.
  unfold players_handler, fetch. cbn [bind run].
  destruct (net services.player.url) as [response |]; [ | reflexivity].
  unfold json. destruct (json_body response); reflexivity.
Qed.

Lemma run_teams_handler (net : network) :
  run net teams_handler =
  match net services.team.url with
  | None => (Thrown, [services.team.url])
  | Some response =>
      match json_body response with
      | None => (Thrown, [services.team.url])
      | Some body => (Returned (ok body), [services.team.url])
      end
  end.
Proof.
  unfold teams_handler, fetch. cbn [bind run].
  destruct (net services.team.url) as [response |]; [ | reflexivity].
  unfold json. destruct (json_body response); reflexivity.
Qed.

Lemma run_team_handler (net : network) (id : param) :
  run net (team_handler id) =
  match net (team_endpoint id) with
  | None => (Thrown, [team_endpoint id])
  | Some response =>
      match json_body response with
      | None => (Thrown, [team_endpoint id])
      | Some body => (Returned (ok body), [team_endpoint id])
      end
  end.
Proof.
  unfold team_handler, fetch. cbn [bind run].
  destruct (net (team_endpoint id)) as [response |]; [ | reflexivity].
  unfold json. destruct (json_body response); reflexivity.
Qed.

(** X1. Through the gateway, GET /players and GET /teams reply 200 with the
    whole store of the service behind them, every record once and in the
    store's order, after a single request to that service. *)
Theorem proxy_lists (players : list PlayerService.Player)
  (teams : list TeamService.Team) :
  run (network_of players teams) players_handler
  = (Returned (ok (VArr (map PlayerService.to_value players))),
     [services.player.url])
  /\ run (network_of players teams) teams_handler
     = (Returned (ok (VArr (map TeamService.to_value teams))),
        [services.team.url]).
Proof.
  split.
  - rewrite run_players_handler, network_players. reflexivity.
  - rewrite run_teams_handler, network_teams. reflexivity.
Qed.

(** X3. A 200 reply of GET /teams/:id/roster is put together from what the
    gateway's own GET /teams/:id and GET /players return on the same
    network: its [team] is the body of the former and its [roster] is the
    filter applied to the body of the latter. *)
Theorem roster_composed_from_routes (net : network) (id : param) (r : reply)
  (trace : list string) :
  run net (roster_handler id) = (Returned r, trace) ->
  statusCode r = 200 ->
  exists team players roster,
    run net (team_handler id) = (Returned (ok team), [team_endpoint id])
    /\ run net players_handler = (Returned (ok players), [services.player.url])
    /\ roster_of id players = Some roster
    /\ r = ok (Roster team roster).
Proof.
  rewrite run_roster_handler, run_team_handler, run_players_handler.
  destruct (net (team_endpoint id)) as [[tstatus [team |]] |];
    cbn [json_body]; try (intros [=]; fail).
  destruct (team_and_error team) as [failed |]; [ | intros [=]].
  destruct (truthy failed).
  - intros [= <- _]. cbn [statusCode]. discriminate.
  - destruct (net services.player.url) as [[pstatus [players |]] |];
      cbn [json_body]; try (intros [=]; fail).
    destruct (roster_of id players) as [roster |] eqn:Hroster; [ | intros [=]].
    intros [= <- _] _. exists team, players, roster.
    repeat split; [exact Hroster].
Qed.

Lemma roster_composed_from_routes_witness :
  exists team players roster,
    run (network_of PlayerService.players TeamService.teams) (team_handler (PStr "1"))
    = (Returned (ok team), [team_endpoint (PStr "1")])
    /\ run (network_of PlayerService.players TeamService.teams) players_handler
       = (Returned (ok players), [services.player.url])
    /\ roster_of (PStr "1") players = Some roster
    /\ ok (Roster
             (TeamService.to_value (TeamService.mkTeam #1 "Los Angeles Dodgers" "NL West"))
             (map PlayerService.to_value
                [ PlayerService.mkPlayer #1 #1 "Shohei Ohtani" "DH/P";
                  PlayerService.mkPlayer #2 #1 "Mookie Betts" "2B" ]))
       = ok (Roster team roster).
Proof.
  apply (roster_composed_from_routes
           (network_of PlayerService.players TeamService.teams) (PStr "1") _
           [team_endpoint (PStr "1"); services.player.url]).
  - reflexivity.
  - reflexivity.
Defined.

(** X4. Whatever the network answers, GET /teams/:id/roster requests the
    team first and then at most the player listing, each at most once; when
    it returns, the reply is either 404 with the fixed body
    [{ error: "Team not found" }], after the team request alone, or 200 with
    an object [{ team, roster }] whose [roster] is an array, after both
    requests. *)
Theorem roster_reply_shapes (net : network) (id : param) :
  exists o trace,
    run net (roster_handler id) = (o, trace)
    /\ (trace = [team_endpoint id]
        \/ trace = [team_endpoint id; services.player.url])
    /\ forall r,
         o = Returned r ->
         (r = mkReply 404 (ServiceError "Team not found")
          /\ trace = [team_endpoint id])
         \/ (exists team roster,
                r = ok (Roster team roster)
                /\ trace = [team_endpoint id; services.player.url]).
Proof.
  rewrite run_roster_handler.
  destruct (net (team_endpoint id)) as [[tstatus [team |]] |]; cbn [json_body];
    try (do 2 eexists; split; [reflexivity | split; [left; reflexivity | ]];
         intros r [=]; fail).
  destruct (team_and_error team) as [failed |];
    [ | do 2 eexists; split; [reflexivity | split; [left; reflexivity | ]];
        intros r [=]].
  destruct (truthy failed).
  { do 2 eexists; split; [reflexivity | split; [left; reflexivity | ]].
    intros r [= <-]. left. auto. }
  destruct (net services.player.url) as [[pstatus [players |]] |];
    cbn [json_body];
    try (do 2 eexists; split; [reflexivity | split; [right; reflexivity | ]];
         intros r [=]; fail).
  destruct (roster_of id players) as [roster |];
    do 2 eexists; (split; [reflexivity | split; [right; reflexivity | ]]).
  - intros r [= <-]. right. exists team, roster. auto.
  - intros r [=].
Qed.

(** X5. GET /teams/:id/roster has no fallback for a failed request: when the
    team service is unreachable or its body is not JSON the handler throws
    without contacting the player service, and when the player service is
    unreachable or its body is not JSON the handler throws as well, with no
    partial reply. *)
Theorem roster_transport_failure (net : network) (id : param) :
  ((net (team_endpoint id) = None
    \/ exists status, net (team_endpoint id) = Some (mkResponse status None)) ->
   run net (roster_handler id) = (Thrown, [team_endpoint id]))
  /\
  (forall status team,
      net (team_endpoint id) = Some (mkResponse status (Some team)) ->
      (truthy team = false
       \/ exists e, get team "error" = Some e /\ truthy e = false) ->
      (net services.player.url = None
       \/ exists pstatus, net services.player.url = Some (mkResponse pstatus None)) ->
      run net (roster_handler id)
      = (Thrown, [team_endpoint id; services.player.url])).
Proof.
  split.
  - intros [Hnone | [status Hbody]]; rewrite run_roster_handler.
    + rewrite Hnone. reflexivity.
    + rewrite Hbody. reflexivity.
  - intros status team Hteam Hpass Hplayers.
    rewrite run_roster_handler, Hteam. cbn [json_body].
    destruct (team_check_false team Hpass) as (failed & -> & ->).
    destruct Hplayers as [Hnone | [pstatus Hbody]].
    + rewrite Hnone. reflexivity.
    + rewrite Hbody. reflexivity.
Qed.

Lemma roster_transport_failure_witness :
  run (fun _ => None) (roster_handler (PStr "1"))
  = (Thrown, [team_endpoint (PStr "1")])
  /\ run (fun url =>
            if (url =? services.player.url)%string then None
            else Some (mkResponse 200
                         (Some (TeamService.to_value
                                  (TeamService.mkTeam #1 "Los Angeles Dodgers" "NL West")))))
         (roster_handler (PStr "1"))
     = (Thrown, [team_endpoint (PStr "1"); services.player.url]).
Proof.
  split.
  - apply (roster_transport_failure (fun _ => None) (PStr "1")).
    left. reflexivity.
  - apply (proj2 (roster_transport_failure _ (PStr "1")) 200
             (TeamService.to_value
                (TeamService.mkTeam #1 "Los Angeles Dodgers" "NL West"))).
    + reflexivity.
    + right. exists VUndefined. split; reflexivity.
    + left. reflexivity.
Defined.

End Proxies.

(** ** The roster filter on arbitrary payloads *)

Section RosterFilter.
Import JS Http Gateway Deployment.

Lemma filter_throws {A : Type} (f : A -> option bool) (l : list A) :
  JS.filter f l = None <-> exists x, In x l /\ f x = None.
Proof.
  induction l as [| a l IH]; simpl.
  - split; [discriminate | intros (x & [] & _)].
  - unfold JS.bind. destruct (f a) as [b |] eqn:Hfa.
    + destruct (JS.filter f l) as [r |].
      * split; [discriminate | ].
        intros (x & [-> | Hin] & Hfx); [congruence | ].
        assert (Habsurd : Some r = None) by (apply IH; exists x; auto).
        discriminate Habsurd.
      * split; [ | reflexivity]. intros _.
        destruct (proj1 IH eq_refl) as (x & Hin & Hfx). exists x. auto.
    + split; [ | reflexivity]. intros _. exists a. auto.
Qed.

Lemma filter_is_pure_filter {A : Type} (f : A -> option bool) (l : list A) :
  forall r,
    JS.filter f l = Some r ->
    r = List.filter (fun x => match f x with Some true => true | _ => false end) l.
Proof.
  induction l as [| a l IH]; simpl; intros r Hr.
  - injection Hr as <-. reflexivity.
  - unfold JS.bind in Hr.
    destruct (f a) as [b |]; [ | discriminate].
    destruct (JS.filter f l) as [r' |]; [ | discriminate].
    injection Hr as <-. rewrite <- (IH r' eq_refl). destruct b; reflexivity.
Qed.

Lemma filter_app {A : Type} (f : A -> option bool) (l1 l2 : list A) :
  JS.filter f (l1 ++ l2)%list
  = JS.bind (JS.filter f l1) (fun r1 =>
    JS.bind (JS.filter f l2) (fun r2 => Some (r1 ++ r2)%list)).
Proof.
  induction l1 as [| a l1 IH]; simpl.
  - unfold JS.bind. destruct (JS.filter f l2); reflexivity.
  - unfold JS.bind in *. destruct (f a) as [b |]; [ | reflexivity].
    rewrite IH. destruct (JS.filter f l1) as [r1 |]; [ | reflexivity].
    destruct (JS.filter f l2) as [r2 |]; [ | reflexivity].
    destruct b; reflexivity.
Qed.

Lemma same_team_throws (teamId : param) (player : value) :
  same_team teamId player = None <->
  player = VNull \/ player = VUndefined
  \/ exists t, get player "teamId" = Some t /\ JS_String t = None.
Proof.
  unfold same_team, JS.bind. split.
  - destruct (get player "teamId") as [t |] eqn:Hget.
    + destruct (JS_String t) eqn:Hs; [discriminate | ].
      intros _. right. right. exists t. auto.
    + intros _. destruct player; simpl in Hget; try discriminate; auto.
  - intros [-> | [-> | (t & Hget & Hs)]]; try reflexivity.
    rewrite Hget, Hs. reflexivity.
Qed.

Lemma JS_String_primitive (v : value) :
  primitive v = true -> exists s, JS_String v = Some s.
Proof.
  destruct v as [| | [|] | n | s | elems | props]; simpl; intros H;
    try discriminate; eexists; reflexivity.
Qed.

Lemma roster_of_throws (teamId : param) (elems : list value) :
  roster_of teamId (VArr elems) = None <->
  exists x, In x elems
            /\ (x = VNull \/ x = VUndefined
                \/ exists t, get x "teamId" = Some t /\ JS_String t = None).
Proof.
  unfold roster_of. rewrite filter_throws.
  split; intros (x & Hin & Hx); exists x; (split; [exact Hin | ]).
  - apply (proj1 (same_team_throws teamId x)). exact Hx.
  - apply (proj2 (same_team_throws teamId x)). exact Hx.
Qed.

(** X6. The roster filter throws exactly when the listing has an element
    that is [null] or [undefined], or whose [teamId] cannot be converted to
    a string; GET /teams/:id/roster then throws after both requests instead
    of skipping that element. *)
Theorem roster_filter_throws :
  (forall (teamId : param) (elems : list value),
      roster_of teamId (VArr elems) = None <->
      exists x, In x elems
                /\ (x = VNull \/ x = VUndefined
                    \/ exists t, get x "teamId" = Some t /\ JS_String t = None))
  /\
  (forall (net : network) (id : param) (tstatus pstatus : Z) (team : value)
          (elems : list value),
      net (team_endpoint id) = Some (mkResponse tstatus (Some team)) ->
      (truthy team = false
       \/ exists e, get team "error" = Some e /\ truthy e = false) ->
      net services.player.url = Some (mkResponse pstatus (Some (VArr elems))) ->
      In VNull elems ->
      run net (roster_handler id)
      = (Thrown, [team_endpoint id; services.player.url])).
Proof.
  split; [exact roster_of_throws | ].
  intros net id tstatus pstatus team elems Hteam Hpass Hplayers Hnull.
  rewrite run_roster_handler, Hteam. cbn [json_body].
  destruct (team_check_false team Hpass) as (failed & -> & ->).
  rewrite Hplayers. cbn [json_body].
  assert (Hthrow : roster_of id (VArr elems) = None).
  { apply roster_of_throws. exists VNull. auto. }
  rewrite Hthrow. reflexivity.
Qed.

Lemma roster_filter_throws_witness :
  roster_of (PStr "1")
    (VArr [ VObj [ ("teamId", VNum #1) ]; VObj [ ("teamId", VObj [ ("toString", VNum #0) ]) ] ])
  = None
  /\ run (answering
            (mkResponse 200
               (Some (TeamService.to_value
                        (TeamService.mkTeam #1 "Los Angeles Dodgers" "NL West"))))
            (mkResponse 200 (Some (VArr [ VObj [ ("teamId", VNum #1) ]; VNull ]))))
         (roster_handler (PStr "1"))
     = (Thrown, [team_endpoint (PStr "1"); services.player.url]).
Proof.
  split.
  - apply (proj1 roster_filter_throws).
    exists (VObj [ ("teamId", VObj [ ("toString", VNum #0) ]) ]).
    split; [right; left; reflexivity | ].
    right. right. exists (VObj [ ("toString", VNum #0) ]). split; reflexivity.
  - apply (proj2 roster_filter_throws _ (PStr "1") 200 200
             (TeamService.to_value
                (TeamService.mkTeam #1 "Los Angeles Dodgers" "NL West"))
             [ VObj [ ("teamId", VNum #1) ]; VNull ]).
    + reflexivity.
    + right. exists VUndefined. split; reflexivity.
    + reflexivity.
    + right. left. reflexivity.
Defined.

(** X7. The roster filter does not throw on a listing whose elements are
    all objects with a [teamId] that is missing or is a number, a string, a
    boolean or [null]. *)
Theorem roster_filter_total_on_objects (teamId : param) (elems : list value) :
  (forall x, In x elems ->
             exists props, x = VObj props
                           /\ forall t, lookup "teamId" props = Some t ->
                                        primitive t = true) ->
  exists roster, roster_of teamId (VArr elems) = Some roster.
Proof.
  intros Hshape.
  destruct (roster_of teamId (VArr elems)) as [roster |] eqn:Hr;
    [exists roster; reflexivity | ].
  apply roster_of_throws in Hr.
  destruct Hr as (x & Hin & Hx).
  destruct (Hshape x Hin) as (props & -> & Hprim).
  destruct Hx as [Hx | [Hx | (t & Hget & Hs)]]; try discriminate.
  simpl in Hget. destruct (lookup "teamId" props) as [t' |] eqn:Hlook.
  - injection Hget as <-.
    destruct (JS_String_primitive t' (Hprim t' eq_refl)) as [s Hs'].
    congruence.
  - injection Hget as <-. discriminate.
Qed.

Lemma roster_filter_total_on_objects_witness :
  exists roster,
    roster_of (PStr "1")
      (VArr [ VObj [ ("teamId", VStr "1") ]; VObj [ ("name", VStr "nobody") ] ])
    = Some roster.
Proof.
  apply roster_filter_total_on_objects.
  intros x [<- | [<- | []]]; eexists; (split; [reflexivity | ]);
    intros t Ht; vm_compute in Ht;
    first [discriminate Ht | injection Ht as <-; reflexivity].
Defined.

(** X8. A roster that the filter produces is the listing with the
    unselected elements removed: nothing is added, reordered or repeated,
    so it is no longer than the listing and has no duplicates when the
    listing has none. *)
Theorem roster_is_sublisting (teamId : param) (elems roster : list value) :
  roster_of teamId (VArr elems) = Some roster ->
  roster = List.filter (selects teamId) elems
  /\ (length roster <= length elems)%nat
  /\ (NoDup elems -> NoDup roster).
Proof.
  intros Hroster.
  assert (Heq : roster = List.filter (selects teamId) elems).
  { apply (filter_is_pure_filter (same_team teamId) elems roster Hroster). }
  split; [exact Heq | split].
  - rewrite Heq. apply List.filter_length_le.
  - intros Hnd. rewrite Heq. apply List.NoDup_filter. exact Hnd.
Qed.

Lemma roster_is_sublisting_witness :
  [ VObj [ ("teamId", VNum #1) ]; VObj [ ("teamId", VStr "1") ] ]
  = List.filter (selects (PStr "1"))
      [ VObj [ ("teamId", VNum #1) ]; VObj [ ("teamId", VNum #2) ];
        VObj [ ("teamId", VStr "1") ] ]
  /\ (2 <= 3)%nat
  /\ (NoDup [ VObj [ ("teamId", VNum #1) ]; VObj [ ("teamId", VNum #2) ];
              VObj [ ("teamId", VStr "1") ] ] ->
      NoDup [ VObj [ ("teamId", VNum #1) ]; VObj [ ("teamId", VStr "1") ] ]).
Proof.
  apply (roster_is_sublisting (PStr "1")
           [ VObj [ ("teamId", VNum #1) ]; VObj [ ("teamId", VNum #2) ];
             VObj [ ("teamId", VStr "1") ] ]
           [ VObj [ ("teamId", VNum #1) ]; VObj [ ("teamId", VStr "1") ] ]).
  reflexivity.
Defined.

(** X9. The roster of a listing made of two parts is the roster of the first
    part followed by the roster of the second, and the filter throws on the
    whole exactly when it throws on a part. *)
Theorem roster_of_concatenation (teamId : param) (first second : list value) :
  roster_of teamId (VArr (first ++ second)%list)
  = JS.bind (roster_of teamId (VArr first)) (fun r1 =>
    JS.bind (roster_of teamId (VArr second)) (fun r2 =>
    Some (r1 ++ r2)%list)).
Proof. unfold roster_of. apply filter_app. Qed.

(** X10. Two requests whose ids print differently select no common element
    of the same payload: an element of the listing is in the roster of at
    most one team id. *)
Theorem rosters_disjoint (id1 id2 : param) (players : value)
  (roster1 roster2 : list value) :
  param_string id1 <> param_string id2 ->
  roster_of id1 players = Some roster1 ->
  roster_of id2 players = Some roster2 ->
  forall player, In player roster1 -> ~ In player roster2.
Proof.
  intros Hdiff H1 H2 player Hin1 Hin2.
  destruct players; simpl in H1, H2;
    try (injection H1 as <-; destruct Hin1; fail).
  apply (filter_In (same_team id1) elems roster1 H1) in Hin1.
  apply (filter_In (same_team id2) elems roster2 H2) in Hin2.
  destruct Hin1 as [_ Hs1], Hin2 as [_ Hs2].
  apply same_team_true in Hs1. apply same_team_true in Hs2.
  destruct Hs1 as (t1 & Hg1 & Ht1), Hs2 as (t2 & Hg2 & Ht2).
  apply Hdiff. congruence.
Qed.

Lemma rosters_disjoint_witness :
  param_string (PStr "1") <> param_string (PStr "2")
  /\ ~ In (PlayerService.to_value (PlayerService.mkPlayer #1 #1 "Shohei Ohtani" "DH/P"))
         (map PlayerService.to_value
            [ PlayerService.mkPlayer #3 #2 "Aaron Judge" "RF" ]).
Proof.
  split; [discriminate | ].
  apply (rosters_disjoint (PStr "1") (PStr "2")
           (VArr (map PlayerService.to_value PlayerService.players))
           (map PlayerService.to_value
              [ PlayerService.mkPlayer #1 #1 "Shohei Ohtani" "DH/P";
                PlayerService.mkPlayer #2 #1 "Mookie Betts" "2B" ])).
  - discriminate.
  - reflexivity.
  - reflexivity.
  - left. reflexivity.
Defined.

End RosterFilter.

(** ** The directories *)

Section DirectoryLookups.
Import JS Http Gateway Deployment.

Lemma find_first {A : Type} (f : A -> bool) (before after : list A) (r : A) :
  (forall x, In x before -> f x = false) -> f r = true ->
  List.find f (before ++ r :: after)%list = Some r.
Proof.
  induction before as [| a before IH]; intros Hbefore Hr; simpl.
  - rewrite Hr. reflexivity.
  - rewrite (Hbefore a (or_introl eq_refl)). apply IH; [ | exact Hr].
    intros x Hx. apply Hbefore. right. exact Hx.
Qed.

Lemma strict_eq_false (n : int) (m : option int) :
  strict_eq n m = false <-> m <> Some n.
Proof.
  rewrite <- (strict_eq_true n m). destruct (strict_eq n m); split; congruence.
Qed.

(** X11. For an integer id, written as its numeral, GetById of either
    service replies 404 with the service's message exactly when no stored
    record has that id, and otherwise replies 200 with a stored record of
    that id.  This needs no assumption that ids are distinct. *)
Theorem get_by_id_exact (players : list PlayerService.Player)
  (teams : list TeamService.Team) (n : int) :
  (by_id (PlayerService.handler players) (decimal n)
   = Some (mkReply 404 (VObj [ ("error", VStr "Player not found") ]))
   <-> forall p, In p players -> PlayerService.id p <> n)
  /\ (by_id (TeamService.handler teams) (decimal n)
      = Some (mkReply 404 (VObj [ ("error", VStr "Team not found") ]))
      <-> forall t, In t teams -> TeamService.id t <> n)
  /\ ((exists p, In p players /\ PlayerService.id p = n) ->
      exists p, In p players /\ PlayerService.id p = n
                /\ by_id (PlayerService.handler players) (decimal n)
                   = Some (mkReply 200 (PlayerService.to_value p)))
  /\ ((exists t, In t teams /\ TeamService.id t = n) ->
      exists t, In t teams /\ TeamService.id t = n
                /\ by_id (TeamService.handler teams) (decimal n)
                   = Some (mkReply 200 (TeamService.to_value t))).
Proof.
  assert (Hparse : parseInt (PNum n) = Some n) by apply parseInt_string_decimal.
  unfold by_id. rewrite check_id_decimal.
  unfold PlayerService.handler, TeamService.handler. rewrite Hparse.
  split; [ | split; [ | split]].
  - destruct (List.find _ players) as [p |] eqn:Hfind.
    + apply List.find_some in Hfind. destruct Hfind as [Hin Hid].
      apply strict_eq_true in Hid.
      split; [discriminate | ]. intros Habs. elim (Habs p Hin). congruence.
    + split; [ | reflexivity]. intros _ p Hin Hid.
      pose proof (List.find_none _ _ Hfind p Hin) as Hno. cbv beta in Hno.
      apply strict_eq_false in Hno. apply Hno. congruence.
  - destruct (List.find _ teams) as [t |] eqn:Hfind.
    + apply List.find_some in Hfind. destruct Hfind as [Hin Hid].
      apply strict_eq_true in Hid.
      split; [discriminate | ]. intros Habs. elim (Habs t Hin). congruence.
    + split; [ | reflexivity]. intros _ t Hin Hid.
      pose proof (List.find_none _ _ Hfind t Hin) as Hno. cbv beta in Hno.
      apply strict_eq_false in Hno. apply Hno. congruence.
  - intros (p0 & Hin0 & Hid0).
    destruct (List.find _ players) as [p |] eqn:Hfind.
    + apply List.find_some in Hfind. destruct Hfind as [Hin Hid].
      apply strict_eq_true in Hid.
      exists p. split; [exact Hin | split; [congruence | reflexivity]].
    + pose proof (List.find_none _ _ Hfind p0 Hin0) as Hno. cbv beta in Hno.
      apply strict_eq_false in Hno. elim Hno. congruence.
  - intros (t0 & Hin0 & Hid0).
    destruct (List.find _ teams) as [t |] eqn:Hfind.
    + apply List.find_some in Hfind. destruct Hfind as [Hin Hid].
      apply strict_eq_true in Hid.
      exists t. split; [exact Hin | split; [congruence | reflexivity]].
    + pose proof (List.find_none _ _ Hfind t0 Hin0) as Hno. cbv beta in Hno.
      apply strict_eq_false in Hno. elim Hno. congruence.
Qed.

Lemma get_by_id_exact_witness :
  (exists p, In p PlayerService.players /\ PlayerService.id p = #3
             /\ by_id (PlayerService.handler PlayerService.players) (decimal #3)
                = Some (mkReply 200 (PlayerService.to_value p)))
  /\ (exists t, In t TeamService.teams /\ TeamService.id t = #2
                /\ by_id (TeamService.handler TeamService.teams) (decimal #2)
                   = Some (mkReply 200 (TeamService.to_value t))).
Proof.
  split.
  - apply (get_by_id_exact PlayerService.players TeamService.teams #3).
    exists (PlayerService.mkPlayer #3 #2 "Aaron Judge" "RF").
    split; [right; right; left; reflexivity | reflexivity].
  - apply (get_by_id_exact PlayerService.players TeamService.teams #2).
    exists (TeamService.mkTeam #2 "New York Yankees" "AL East").
    split; [right; left; reflexivity | reflexivity].
Defined.

(** X12. When several stored records have the requested id, GetById
    replies with the one that comes first in the store. *)
Theorem get_by_id_first_match (id : param) :
  (forall (before after : list PlayerService.Player) (p : PlayerService.Player),
      (forall x, In x before -> parseInt id <> Some (PlayerService.id x)) ->
      parseInt id = Some (PlayerService.id p) ->
      PlayerService.handler (before ++ p :: after)%list id
      = ok (PlayerService.to_value p))
  /\
  (forall (before after : list TeamService.Team) (t : TeamService.Team),
      (forall x, In x before -> parseInt id <> Some (TeamService.id x)) ->
      parseInt id = Some (TeamService.id t) ->
      TeamService.handler (before ++ t :: after)%list id
      = ok (TeamService.to_value t)).
Proof.
  split.
  - intros before after p Hbefore Hid. unfold PlayerService.handler.
    rewrite find_first; [reflexivity | | ].
    + intros x Hx. apply strict_eq_false. apply Hbefore. exact Hx.
    + apply strict_eq_true. exact Hid.
  - intros before after t Hbefore Hid. unfold TeamService.handler.
    rewrite find_first; [reflexivity | | ].
    + intros x Hx. apply strict_eq_false. apply Hbefore. exact Hx.
    + apply strict_eq_true. exact Hid.
Qed.

Lemma get_by_id_first_match_witness :
  PlayerService.handler
    ([ PlayerService.mkPlayer #1 #1 "Shohei Ohtani" "DH/P" ]
     ++ PlayerService.mkPlayer #7 #1 "first" "P"
        :: [ PlayerService.mkPlayer #7 #2 "second" "C" ])%list
    (PStr "7")
  = ok (PlayerService.to_value (PlayerService.mkPlayer #7 #1 "first" "P"))
  /\ TeamService.handler
       ([] ++ TeamService.mkTeam #7 "first" "NL West"
           :: [ TeamService.mkTeam #7 "second" "AL East" ])%list
       (PStr "7")
     = ok (TeamService.to_value (TeamService.mkTeam #7 "first" "NL West")).
Proof.
  split.
  - apply (proj1 (get_by_id_first_match (PStr "7"))).
    + intros x [<- | []]. vm_compute. discriminate.
    + reflexivity.
  - apply (proj2 (get_by_id_first_match (PStr "7"))).
    + intros x [].
    + reflexivity.
Defined.

Lemma append_inj_prefix (prefix a b : string) :
  (prefix ++ a)%string = (prefix ++ b)%string -> a = b.
Proof.
  induction prefix as [| c prefix IH]; simpl; intros H.
  - exact H.
  - injection H as H. apply IH. exact H.
Qed.

(** X14. A safe integer id that the gateway prints into a service URL
    passes the service's check of the parameter, reaches GetById as the same
    integer and is read back by [parseInt] as that integer; two different
    integers never give the same URL. *)
Theorem id_survives_the_url (players : list PlayerService.Player)
  (teams : list TeamService.Team) (n : int) :
  network_of players teams (team_endpoint (PNum n))
  = Some (serve (TeamService.handler teams (PNum n)))
  /\ network_of players teams (player_endpoint (PNum n))
     = Some (serve (PlayerService.handler players (PNum n)))
  /\ check_id (param_string (PNum n)) = Accepted (PNum n)
  /\ parseInt (PNum n) = Some n
  /\ (forall m : int, n <> m -> team_endpoint (PNum n) <> team_endpoint (PNum m))
  /\ (forall m : int, n <> m -> player_endpoint (PNum n) <> player_endpoint (PNum m)).
Proof.
  split; [apply (network_team players teams (PNum n) n); reflexivity | ].
  split; [apply (network_player players teams (PNum n) n); reflexivity | ].
  split; [apply check_id_decimal | ].
  split; [apply parseInt_string_decimal | ].
  split; intros m Hdiff H; apply Hdiff, int_eq, decimal_inj.
  - apply (append_inj_prefix (services.team.url ++ "/")%string). exact H.
  - apply (append_inj_prefix (services.player.url ++ "/")%string). exact H.
Qed.

Lemma id_survives_the_url_witness :
  #12 <> #21
  /\ team_endpoint (PNum #12) <> team_endpoint (PNum #21)
  /\ player_endpoint (PNum #12) <> player_endpoint (PNum #21).
Proof.
  destruct (id_survives_the_url PlayerService.players TeamService.teams #12)
    as (_ & _ & _ & _ & Hteam & Hplayer).
  split; [discriminate | split].
  - apply Hteam. discriminate.
  - apply Hplayer. discriminate.
Defined.

End DirectoryLookups.

(** ** Replies against the declared schemas *)

Section Schemas.
Import JS Http Gateway Deployment Schema.

Lemma players_validate (l : list PlayerService.Player) :
  forallb (validates PlayerService.playerSchema) (map PlayerService.to_value l) = true.
Proof.
  induction l as [| p l IH]; [reflexivity | ].
  cbn [map forallb]. rewrite IH. reflexivity.
Qed.



(** X18. With the two services behind it, GET /teams/:id/roster returns for
    every safe integer id, and its reply validates against the schema the
    route declares for the reply's status, with exactly the declared
    properties: a 404 reply holds [error], a string, and a 200 reply holds
    [team], a stored Team with that id, and [roster], the array of the
    stored Players of that team. *)
Theorem roster_reply_validates (players : list PlayerService.Player)
  (teams : list TeamService.Team) (id : param) (n : int) :
  param_string id = decimal n ->
  exists r trace s,
    run (network_of players teams) (roster_handler id) = (Returned r, trace)
    /\ roster_response (statusCode r) = Some s
    /\ validates s (payload r) = true
    /\ keys (payload r) = declared s
    /\ (statusCode r = 200 ->
        exists t,
          In t teams /\ TeamService.id t = n
          /\ payload r
             = VObj [ ("team", TeamService.to_value t);
                      ("roster",
                       VArr (map PlayerService.to_value
                               (List.filter
                                  (fun p => PlayerService.teamId p =? n) players))) ]).
Proof.
  intros Hid.
  assert (Hparse : parseInt (PNum n) = Some n) by apply parseInt_string_decimal.
  rewrite run_roster_handler, (network_team players teams id n Hid).
  unfold TeamService.handler. rewrite Hparse.
  destruct (List.find _ teams) as [t |] eqn:Hfind.
  - apply List.find_some in Hfind. destruct Hfind as [Hin Heq].
    apply strict_eq_true in Heq.
    cbn [serve json_body payload ok]. rewrite network_players.
    cbn [serve json_body payload ok PlayerService.list_handler].
    rewrite (roster_of_players id n players Hid).
    change (team_and_error (TeamService.to_value t)) with (Some VUndefined).
    cbn [truthy].
    do 2 eexists. exists rosterSchema.
    split; [reflexivity | split; [reflexivity | split; [ | split]]].
    + cbn [payload ok].
      change (validates rosterSchema
                (Roster (TeamService.to_value t)
                   (map PlayerService.to_value
                      (List.filter (fun p => PlayerService.teamId p =? n) players))))
        with (forallb (validates PlayerService.playerSchema)
                (map PlayerService.to_value
                   (List.filter (fun p => PlayerService.teamId p =? n) players))
              && true).
      rewrite players_validate. reflexivity.
    + reflexivity.
    + intros _. exists t. split; [exact Hin | split; [congruence | reflexivity]].
  - do 2 eexists. exists errorSchema.
    split; [reflexivity | split; [reflexivity | split; [reflexivity | split]]].
    + reflexivity.
    + cbn [statusCode]. discriminate.
Qed.

Lemma roster_reply_validates_witness :
  exists r trace s,
    run (network_of PlayerService.players TeamService.teams) (roster_handler (PNum #2))
    = (Returned r, trace)
    /\ roster_response (statusCode r) = Some s
    /\ validates s (payload r) = true
    /\ keys (payload r) = declared s
    /\ (statusCode r = 200 ->
        exists t,
          In t TeamService.teams /\ TeamService.id t = #2
          /\ payload r
             = VObj [ ("team", TeamService.to_value t);
                      ("roster",
                       VArr (map PlayerService.to_value
                               (List.filter
                                  (fun p => PlayerService.teamId p =? #2)
                                  PlayerService.players))) ]).
Proof.
  apply (roster_reply_validates PlayerService.players TeamService.teams
           (PNum #2) #2).
  reflexivity.
Defined.

End Schemas.

(** ** Integers under the string comparison *)

Section IntegerIds.
Import JS Http Gateway.

(** X19. On integers the filter's comparison of string forms is exact: for
    a request whose id prints as the integer [n], a player whose [teamId] is
    the number [m], or the numeral of [m] in a string, is selected exactly
    when [m] is [n]. *)
Theorem integer_team_ids_match_exactly (teamId : param) (n m : int)
  (others : list (string * value)) :
  param_string teamId = decimal n ->
  same_team teamId (VObj (("teamId", VNum m) :: others)) = Some (m =? n)
  /\ same_team teamId (VObj (("teamId", VStr (decimal m)) :: others))
     = Some (m =? n).
Proof.
  intros Hid. unfold same_team.
  change (get (VObj (("teamId", VNum m) :: others)) "teamId")
    with (Some (VNum m)).
  change (get (VObj (("teamId", VStr (decimal m)) :: others)) "teamId")
    with (Some (VStr (decimal m))).
  cbn [JS.bind JS_String]. rewrite Hid, decimal_eqb. split; reflexivity.
Qed.

Lemma integer_team_ids_match_exactly_witness :
  same_team (PNum #1) (VObj [ ("teamId", VNum #11) ]) = Some (11 =? 1)
  /\ same_team (PNum #1) (VObj [ ("teamId", VStr (decimal 11)) ]) = Some (11 =? 1).
Proof.
  apply (integer_team_ids_match_exactly (PNum #1) #1 #11 []).
  reflexivity.
Defined.

End IntegerIds.
